(** * TA-lastpass: the event-reporting modular input

    A shallow embedding of [bin/input_module_lastpass_event_reporting.py]
    and the properties of its checkpoint store adapter, window planner and
    collection driver.

    Conventions of the embedding.
    - A Python value is a [pyval]; the functions of the source keep their
      names and their dynamic dispatch on the shape of a value.
    - A naive [datetime] is a count of microseconds on the proleptic
      Gregorian calendar (origin 1970-01-01 00:00:00); a [timedelta] is a
      count of microseconds.  The MINYEAR/MAXYEAR ceiling of datetime
      arithmetic is outside the model; [fromtimestamp] and [strptime] do
      check the year.
    - A Python float is the decimal [m * 10^e] it denotes ([FDec]), or an
      infinity or a NaN.  Parsing a literal decides zero, sign and overflow
      exactly as binary64 does; the rounding of the low-order digits and the
      sign of zero are not kept.
    - Strings are ASCII text.
    - Calls to the logger are not recorded; where building the log message
      itself raises (reading [e.message], calling [.get] on a value that has
      none) the raise is modelled. *)

From Stdlib Require Import ZArith List String Ascii Bool Lia DecimalString.
From Stdlib Require DecimalFacts DecimalPos.
Import ListNotations.

Set Warnings "-register-all".
Open Scope string_scope.
Open Scope Z_scope.

(** ** Python builtins *)

Module Py.

(** *** Exceptions *)

Inductive exn_class :=
| AttributeError | TypeError | ValueError | KeyError | IndexError
| OverflowError | IOError | PlainException.

(** An exception raised by the interpreter or by the source itself is
    [Builtin]: in Python 3 it has no [message] attribute.  An exception
    of a collaborator (the host helper, the HTTP client) is [Foreign];
    its class may define [message]. *)
Inductive exn :=
| Builtin (c : exn_class)
| Foreign (name : string) (message : option string).

Inductive res (A : Type) :=
| Ok (a : A)
| Err (e : exn).
Arguments Ok {A} a.
Arguments Err {A} e.

Definition rbind {A B} (r : res A) (k : A -> res B) : res B :=
  match r with
  | Ok a => k a
  | Err e => Err e
  end.

(** [e.message] *)
Definition exn_message (e : exn) : res string :=
  match e with
  | Foreign _ (Some m) => Ok m
  | _ => Err (Builtin AttributeError)
  end.

(** *** Values *)

Record datetime := DT { dt_us : Z }.
Record timedelta := TD { td_us : Z }.

Inductive pyfloat :=
| FNan
| FInf (negative : bool)
| FDec (m e : Z).

Inductive pyval :=
| PyNone
| PyBool (b : bool)
| PyInt (z : Z)
| PyFloat (f : pyfloat)
| PyStr (s : string)
| PyDatetime (d : datetime)
| PyTimedelta (t : timedelta)
| PyList (l : list pyval)
| PyDict (m : list (string * pyval)).

(** A dict is kept in insertion order, with string keys. *)
Definition dict := list (string * pyval).

Fixpoint dict_get (m : dict) (k : string) : option pyval :=
  match m with
  | [] => None
  | (k', v) :: m' => if String.eqb k' k then Some v else dict_get m' k
  end.

Fixpoint dict_set (m : dict) (k : string) (v : pyval) : dict :=
  match m with
  | [] => [(k, v)]
  | (k', v') :: m' =>
      if String.eqb k' k then (k', v) :: m' else (k', v') :: dict_set m' k v
  end.

(** *** Characters and decimal text *)

Definition code (c : ascii) : Z := Z.of_nat (nat_of_ascii c).

Definition is_digit (c : ascii) : bool := (48 <=? code c) && (code c <=? 57).
Definition digit_val (c : ascii) : Z := code c - 48.

(** The ASCII characters for which [str.isspace] holds. *)
Definition is_space (c : ascii) : bool :=
  ((9 <=? code c) && (code c <=? 13))
  || ((28 <=? code c) && (code c <=? 32)).

Definition lower (c : ascii) : ascii :=
  if (65 <=? code c) && (code c <=? 90)
  then ascii_of_nat (nat_of_ascii c + 32) else c.

Fixpoint lstrip (s : string) : string :=
  match s with
  | String c s' => if is_space c then lstrip s' else s
  | EmptyString => s
  end.

Fixpoint all_space (s : string) : bool :=
  match s with
  | String c s' => is_space c && all_space s'
  | EmptyString => true
  end.

Fixpoint lower_str (s : string) : string :=
  match s with
  | String c s' => String (lower c) (lower_str s')
  | EmptyString => EmptyString
  end.

(** [sub in s] on strings. *)
Fixpoint contains (sub s : string) : bool :=
  if prefix sub s then true
  else match s with
       | String _ s' => contains sub s'
       | EmptyString => false
       end.

Definition str_of_Z (z : Z) : string := NilZero.string_of_int (Z.to_int z).

(** [z] in decimal, left-padded with zeros to [width] characters. *)
Definition pad (width : nat) (z : Z) : string :=
  let s := str_of_Z z in
  (fix zeros (n : nat) : string :=
     match n with
     | O => s
     | S n' => String "0" (zeros n')
     end) (width - String.length s)%nat.

(** A run of digits continuing a number: digits, with single underscores
    allowed between two digits.  Returns the accumulated value, the number
    of digits read and the rest of the text. *)
Fixpoint digits_tail (acc cnt : Z) (s : string) : Z * Z * string :=
  match s with
  | String c s' =>
      if is_digit c then digits_tail (acc * 10 + digit_val c) (cnt + 1) s'
      else if Ascii.eqb c "_" then
        match s' with
        | String d s'' =>
            if is_digit d
            then digits_tail (acc * 10 + digit_val d) (cnt + 1) s''
            else (acc, cnt, s)
        | EmptyString => (acc, cnt, s)
        end
      else (acc, cnt, s)
  | EmptyString => (acc, cnt, s)
  end.

(** A run that must start with a digit; [cnt = 0] when there is none. *)
Definition digits (acc : Z) (s : string) : Z * Z * string :=
  match s with
  | String c s' =>
      if is_digit c then digits_tail (acc * 10 + digit_val c) 1 s'
      else (acc, 0, s)
  | EmptyString => (acc, 0, s)
  end.

(** An optional sign: [true] for a minus. *)
Definition sign (s : string) : bool * string :=
  match s with
  | String "-" s' => (true, s')
  | String "+" s' => (false, s')
  | _ => (false, s)
  end.

Definition signed (neg : bool) (z : Z) : Z := if neg then - z else z.

(** [int(s)] for a string, base 10. *)
Definition int_of_str (s : string) : res Z :=
  let '(neg, s1) := sign (lstrip s) in
  let '(v, cnt, rest) := digits 0 s1 in
  if (0 <? cnt) && all_space rest then Ok (signed neg v)
  else Err (Builtin ValueError).

(** *** Floats *)

(** The decimal [m * 10^e] as binary64 sees its magnitude: at or below
    half the least subnormal it is zero, at or above the rounding
    threshold of the largest finite value it is an infinity. *)
Definition float_of_decimal (m e : Z) : pyfloat :=
  let a := Z.abs m in
  let big := 2 ^ 1024 - 2 ^ 970 in
  if a =? 0 then FDec 0 0
  else if 0 <=? e then
    if big <=? a * 10 ^ e then FInf (m <? 0) else FDec m e
  else if a * 2 ^ 1075 <=? 10 ^ (- e) then FDec 0 0
  else if big * 10 ^ (- e) <=? a then FInf (m <? 0)
  else FDec m e.

(** The exponent part of a float literal, when one is there. *)
Definition exponent (s : string) : Z * string :=
  match s with
  | String c s1 =>
      if Ascii.eqb (lower c) "e" then
        let '(neg, s2) := sign s1 in
        let '(v, cnt, rest) := digits 0 s2 in
        if 0 <? cnt then (signed neg v, rest) else (0, s)
      else (0, s)
  | EmptyString => (0, s)
  end.

(** [float(s)] for a string. *)
Definition float_of_str (s : string) : res pyfloat :=
  let '(neg, s1) := sign (lstrip s) in
  let word := lower_str s1 in
  let special (name : string) : option string :=
    if prefix name word
    then Some (substring (String.length name) (String.length s1) s1)
    else None in
  let finish (f : pyfloat) (rest : string) : res pyfloat :=
    if all_space rest then Ok f else Err (Builtin ValueError) in
  match special "infinity", special "inf", special "nan" with
  | Some rest, _, _ => finish (FInf neg) rest
  | None, Some rest, _ => finish (FInf neg) rest
  | None, None, Some rest => finish FNan rest
  | None, None, None =>
      let '(ip, icnt, s2) := digits 0 s1 in
      let '(m, fcnt, s3) :=
        match s2 with
        | String "." s2' => digits ip s2'
        | _ => (ip, 0, s2)
        end in
      if (icnt =? 0) && (fcnt =? 0) then Err (Builtin ValueError)
      else
        let '(ex, s4) := exponent s3 in
        finish (float_of_decimal (signed neg m) (ex - fcnt)) s4
  end.

(** [bool(f)] and [f > 0]. *)
Definition float_truthy (f : pyfloat) : bool :=
  match f with
  | FDec m _ => negb (m =? 0)
  | _ => true
  end.

Definition float_pos (f : pyfloat) : bool :=
  match f with
  | FDec m _ => 0 <? m
  | FInf negative => negb negative
  | FNan => false
  end.

(** [int(f)]: truncation toward zero. *)
Definition int_of_float (f : pyfloat) : res Z :=
  match f with
  | FNan => Err (Builtin ValueError)
  | FInf _ => Err (Builtin OverflowError)
  | FDec m e => Ok (if 0 <=? e then m * 10 ^ e else Z.quot m (10 ^ (- e)))
  end.

(** [repr(f)], which is also [str(f)]. *)
Fixpoint rstrip0 (s : string) : string :=
  match s with
  | EmptyString => EmptyString
  | String c s' =>
      match rstrip0 s' with
      | EmptyString => if Ascii.eqb c "0" then EmptyString else String c EmptyString
      | r => String c r
      end
  end.

Fixpoint zeros (n : nat) : string :=
  match n with
  | O => EmptyString
  | S n' => String "0" (zeros n')
  end.

Definition str_of_float (f : pyfloat) : string :=
  match f with
  | FNan => "nan"
  | FInf negative => if negative then "-inf" else "inf"
  | FDec m e =>
      if m =? 0 then "0.0"
      else
        let all := str_of_Z (Z.abs m) in
        let ds := rstrip0 all in
        let n := Z.of_nat (String.length ds) in
        let decpt := Z.of_nat (String.length all) + e in
        let body :=
          if (-4 <? decpt) && (decpt <=? 16) then
            if decpt <=? 0 then "0." ++ zeros (Z.to_nat (- decpt)) ++ ds
            else if n <=? decpt then ds ++ zeros (Z.to_nat (decpt - n)) ++ ".0"
            else substring 0 (Z.to_nat decpt) ds ++ "."
                 ++ substring (Z.to_nat decpt) (String.length ds) ds
          else
            let x := decpt - 1 in
            substring 0 1 ds
            ++ (if 1 <? n then "." ++ substring 1 (String.length ds) ds
                else EmptyString)
            ++ "e" ++ (if x <? 0 then "-" else "+") ++ pad 2 (Z.abs x) in
        (if m <? 0 then "-" else EmptyString) ++ body
  end.

(** *** Calendar *)

Definition us_per_second : Z := 1000000.
Definition us_per_day : Z := 86400 * us_per_second.

Definition is_leap (y : Z) : bool :=
  ((y mod 4 =? 0) && negb (y mod 100 =? 0)) || (y mod 400 =? 0).

Definition days_in_month (y m : Z) : Z :=
  if m =? 2 then (if is_leap y then 29 else 28)
  else if (m =? 4) || (m =? 6) || (m =? 9) || (m =? 11) then 30
  else 31.

(** Days from 1970-01-01 to the civil date [y-m-d]. *)
Definition days_from_civil (y m d : Z) : Z :=
  let y' := if m <=? 2 then y - 1 else y in
  let era := y' / 400 in
  let yoe := y' - era * 400 in
  let mp := if 2 <? m then m - 3 else m + 9 in
  let doy := (153 * mp + 2) / 5 + d - 1 in
  let doe := yoe * 365 + yoe / 4 - yoe / 100 + doy in
  era * 146097 + doe - 719468.

(** The civil date of a day number. *)
Definition civil_from_days (z : Z) : Z * Z * Z :=
  let z' := z + 719468 in
  let era := z' / 146097 in
  let doe := z' - era * 146097 in
  let yoe := (doe - doe / 1460 + doe / 36524 - doe / 146096) / 365 in
  let doy := doe - (365 * yoe + yoe / 4 - yoe / 100) in
  let mp := (5 * doy + 2) / 153 in
  let d := doy - (153 * mp + 2) / 5 + 1 in
  let m := if mp <? 10 then mp + 3 else mp - 9 in
  let y := yoe + era * 400 in
  (if m <=? 2 then y + 1 else y, m, d).

(** [datetime(y, mo, d, h, mi, s, us)] *)
Definition mk_datetime (y mo d h mi s us : Z) : datetime :=
  DT (days_from_civil y mo d * us_per_day
      + ((h * 60 + mi) * 60 + s) * us_per_second + us).

Record fields := Fields
  { year : Z; month : Z; day : Z;
    hour : Z; minute : Z; second : Z; microsecond : Z }.

Definition fields_of (d : datetime) : fields :=
  let days := dt_us d / us_per_day in
  let rem := dt_us d mod us_per_day in
  let '(y, mo, dd) := civil_from_days days in
  let secs := rem / us_per_second in
  Fields y mo dd (secs / 3600) (secs / 60 mod 60) (secs mod 60)
         (rem mod us_per_second).

(** datetime and timedelta arithmetic *)
Definition timedelta_days (n : Z) : timedelta := TD (n * us_per_day).
Definition timedelta_seconds (n : Z) : timedelta := TD (n * us_per_second).
Definition dt_add (d : datetime) (t : timedelta) : datetime := DT (dt_us d + td_us t).
Definition dt_sub_td (d : datetime) (t : timedelta) : datetime := DT (dt_us d - td_us t).
Definition dt_sub (a b : datetime) : timedelta := TD (dt_us a - dt_us b).
Definition dt_lt (a b : datetime) : bool := dt_us a <? dt_us b.

(** [t.days]: a timedelta is normalised with its seconds and microseconds
    non-negative, so the days are the floor. *)
Definition days (t : timedelta) : Z := td_us t / us_per_day.

(** [d.replace(microsecond=0)] *)
Definition replace_microsecond0 (d : datetime) : datetime :=
  DT (dt_us d - dt_us d mod us_per_second).

Definition year_ok (d : datetime) : bool :=
  (dt_us (mk_datetime 1 1 1 0 0 0 0) <=? dt_us d)
  && (dt_us d <? dt_us (mk_datetime 10000 1 1 0 0 0 0)).

(** [d.strftime('%Y-%m-%d %H:%M:%S')] *)
Definition strftime_lp (d : datetime) : string :=
  let f := fields_of d in
  pad 4 (year f) ++ "-" ++ pad 2 (month f) ++ "-" ++ pad 2 (day f) ++ " "
  ++ pad 2 (hour f) ++ ":" ++ pad 2 (minute f) ++ ":" ++ pad 2 (second f).

(** [str(d)] *)
Definition str_of_datetime (d : datetime) : string :=
  strftime_lp d
  ++ (if microsecond (fields_of d) =? 0 then EmptyString
      else "." ++ pad 6 (microsecond (fields_of d))).

(** [repr(d)] *)
Definition repr_of_datetime (d : datetime) : string :=
  let f := fields_of d in
  "datetime.datetime(" ++ str_of_Z (year f) ++ ", " ++ str_of_Z (month f)
  ++ ", " ++ str_of_Z (day f) ++ ", " ++ str_of_Z (hour f)
  ++ ", " ++ str_of_Z (minute f)
  ++ (if (second f =? 0) && (microsecond f =? 0) then EmptyString
      else ", " ++ str_of_Z (second f))
  ++ (if microsecond f =? 0 then EmptyString
      else ", " ++ str_of_Z (microsecond f))
  ++ ")".

(** [str(t)] and [repr(t)] *)
Definition str_of_timedelta (t : timedelta) : string :=
  let d := days t in
  let rem := td_us t mod us_per_day in
  let secs := rem / us_per_second in
  let us := rem mod us_per_second in
  (if d =? 0 then EmptyString
   else str_of_Z d ++ " day" ++ (if Z.abs d =? 1 then EmptyString else "s") ++ ", ")
  ++ str_of_Z (secs / 3600) ++ ":" ++ pad 2 (secs / 60 mod 60)
  ++ ":" ++ pad 2 (secs mod 60)
  ++ (if us =? 0 then EmptyString else "." ++ pad 6 us).

Definition repr_of_timedelta (t : timedelta) : string :=
  let d := days t in
  let rem := td_us t mod us_per_day in
  let secs := rem / us_per_second in
  let us := rem mod us_per_second in
  let part (name : string) (n : Z) : list string :=
    if n =? 0 then [] else [name ++ "=" ++ str_of_Z n] in
  let parts :=
    List.app (part "days" d)
             (List.app (part "seconds" secs) (part "microseconds" us)) in
  "datetime.timedelta("
  ++ match parts with [] => "0" | _ => String.concat ", " parts end
  ++ ")".

(** *** Text of a value *)

Definition hex_digit (n : Z) : ascii :=
  ascii_of_nat (Z.to_nat (if n <? 10 then 48 + n else 87 + n)).

Definition dquote : ascii := "034"%char.

Definition backslash : ascii := "092"%char.

Definition escaped (c : ascii) : string :=
  String backslash (String c EmptyString).

(** One character of [repr(s)] inside the quote [q]. *)
Definition escape_char (q c : ascii) : string :=
  if Ascii.eqb c backslash then escaped backslash
  else if Ascii.eqb c q then escaped c
  else if code c =? 9 then escaped "t"
  else if code c =? 10 then escaped "n"
  else if code c =? 13 then escaped "r"
  else if (code c <? 32) || (126 <? code c) then
    String backslash
      (String "x" (String (hex_digit (code c / 16))
                     (String (hex_digit (code c mod 16)) EmptyString)))
  else String c EmptyString.

Fixpoint escape (q : ascii) (s : string) : string :=
  match s with
  | EmptyString => EmptyString
  | String c s' => escape_char q c ++ escape q s'
  end.

Fixpoint has_char (c : ascii) (s : string) : bool :=
  match s with
  | EmptyString => false
  | String c' s' => Ascii.eqb c c' || has_char c s'
  end.

(** [repr(s)] for a string. *)
Definition repr_of_str (s : string) : string :=
  let q := if has_char "'" s && negb (has_char dquote s) then dquote else "'"%char in
  String q (escape q s ++ String q EmptyString).

Fixpoint py_repr (v : pyval) : string :=
  match v with
  | PyNone => "None"
  | PyBool b => if b then "True" else "False"
  | PyInt z => str_of_Z z
  | PyFloat f => str_of_float f
  | PyStr s => repr_of_str s
  | PyDatetime d => repr_of_datetime d
  | PyTimedelta t => repr_of_timedelta t
  | PyList l => "[" ++ String.concat ", " (map py_repr l) ++ "]"
  | PyDict m =>
      "{" ++ String.concat ", "
               (map (fun '(k, x) => repr_of_str k ++ ": " ++ py_repr x) m)
      ++ "}"
  end.

(** [str(v)] *)
Definition py_str (v : pyval) : string :=
  match v with
  | PyStr s => s
  | PyDatetime d => str_of_datetime d
  | PyTimedelta t => str_of_timedelta t
  | _ => py_repr v
  end.

(** [bool(v)] *)
Definition truthy (v : pyval) : bool :=
  match v with
  | PyNone => false
  | PyBool b => b
  | PyInt z => negb (z =? 0)
  | PyFloat f => float_truthy f
  | PyStr s => negb (String.eqb s EmptyString)
  | PyDatetime _ => true
  | PyTimedelta t => negb (td_us t =? 0)
  | PyList l => match l with [] => false | _ => true end
  | PyDict m => match m with [] => false | _ => true end
  end.

(** [int(v)] *)
Definition py_int (v : pyval) : res Z :=
  match v with
  | PyBool b => Ok (if b then 1 else 0)
  | PyInt z => Ok z
  | PyFloat f => int_of_float f
  | PyStr s => int_of_str s
  | _ => Err (Builtin TypeError)
  end.

(** [float(v)] *)
Definition py_float (v : pyval) : res pyfloat :=
  match v with
  | PyBool b => Ok (FDec (if b then 1 else 0) 0)
  | PyInt z =>
      match float_of_decimal z 0 with
      | FInf _ => Err (Builtin OverflowError)
      | f => Ok f
      end
  | PyFloat f => Ok f
  | PyStr s => float_of_str s
  | _ => Err (Builtin TypeError)
  end.

(** [v > 0] *)
Definition py_gt0 (v : pyval) : res bool :=
  match v with
  | PyBool b => Ok b
  | PyInt z => Ok (0 <? z)
  | PyFloat f => Ok (float_pos f)
  | _ => Err (Builtin TypeError)
  end.

(** [v - d] for a datetime [d]: only a datetime has a difference with a
    datetime. *)
Definition sub_datetime (v : pyval) (d : datetime) : res pyval :=
  match v with
  | PyDatetime a => Ok (PyTimedelta (dt_sub a d))
  | _ => Err (Builtin TypeError)
  end.

(** [sub in v] for a string [sub] *)
Definition py_contains (sub : string) (v : pyval) : res bool :=
  match v with
  | PyStr s => Ok (contains sub s)
  | PyList l =>
      Ok (existsb (fun x => match x with
                            | PyStr s => String.eqb s sub
                            | _ => false
                            end) l)
  | PyDict m => Ok (match dict_get m sub with Some _ => true | None => false end)
  | _ => Err (Builtin TypeError)
  end.

(** [v[k]] *)
Definition py_getitem (v k : pyval) : res pyval :=
  match v, k with
  | PyDict m, PyStr s =>
      match dict_get m s with
      | Some x => Ok x
      | None => Err (Builtin KeyError)
      end
  | PyDict _, (PyList _ | PyDict _) => Err (Builtin TypeError)
  | PyDict _, _ => Err (Builtin KeyError)
  | PyList l, (PyInt _ | PyBool _) =>
      let i := match k with PyInt z => z | PyBool true => 1 | _ => 0 end in
      let j := if i <? 0 then i + Z.of_nat (List.length l) else i in
      if j <? 0 then Err (Builtin IndexError)
      else match nth_error l (Z.to_nat j) with
           | Some x => Ok x
           | None => Err (Builtin IndexError)
           end
  | PyStr s, (PyInt _ | PyBool _) =>
      let i := match k with PyInt z => z | PyBool true => 1 | _ => 0 end in
      let j := if i <? 0 then i + Z.of_nat (String.length s) else i in
      if j <? 0 then Err (Builtin IndexError)
      else match String.get (Z.to_nat j) s with
           | Some c => Ok (PyStr (String c EmptyString))
           | None => Err (Builtin IndexError)
           end
  | _, _ => Err (Builtin TypeError)
  end.

(** [v[k] = x] for a string key [k], on a copy *)
Definition py_setitem (v : pyval) (k : string) (x : pyval) : res pyval :=
  match v with
  | PyDict m => Ok (PyDict (dict_set m k x))
  | _ => Err (Builtin TypeError)
  end.

(** [v.get(k)] *)
Definition py_get (v : pyval) (k : string) : res pyval :=
  match v with
  | PyDict m => Ok (match dict_get m k with Some x => x | None => PyNone end)
  | _ => Err (Builtin AttributeError)
  end.

Fixpoint chars (s : string) : list pyval :=
  match s with
  | EmptyString => []
  | String c s' => PyStr (String c EmptyString) :: chars s'
  end.

(** The items [for x in v] visits. *)
Definition py_iter (v : pyval) : res (list pyval) :=
  match v with
  | PyDict m => Ok (map (fun kv => PyStr (fst kv)) m)
  | PyList l => Ok l
  | PyStr s => Ok (chars s)
  | _ => Err (Builtin TypeError)
  end.

(** *** Epoch conversions

    [tz] is the offset of the local zone from UTC, in seconds; a naive
    datetime is read in the local zone. *)

(** [d.timestamp()] *)
Definition timestamp (tz : Z) (d : datetime) : pyfloat :=
  FDec (dt_us d - tz * us_per_second) (-6).

(** [d.strftime('%s.%f')] *)
Definition strftime_epoch (tz : Z) (d : datetime) : string :=
  str_of_Z (dt_us d / us_per_second - tz) ++ "."
  ++ pad 6 (dt_us d mod us_per_second).

Definition checked (d : datetime) : res datetime :=
  if year_ok d then Ok d else Err (Builtin ValueError).

(** [m / 10^k] rounded to the nearest integer, ties to even. *)
Definition round_half_even (m k : Z) : Z :=
  let p := 10 ^ k in
  let q := m / p in
  let r := m mod p in
  if 2 * r <? p then q
  else if p <? 2 * r then q + 1
  else if Z.even q then q else q + 1.

(** [datetime.fromtimestamp(z)] for an int and for a float. *)
Definition fromtimestamp_int (tz : Z) (z : Z) : res datetime :=
  checked (DT ((z + tz) * us_per_second)).

Definition fromtimestamp_float (tz : Z) (f : pyfloat) : res datetime :=
  match f with
  | FNan => Err (Builtin ValueError)
  | FInf _ => Err (Builtin OverflowError)
  | FDec m e =>
      let us := if 0 <=? e + 6 then m * 10 ^ (e + 6)
                else round_half_even m (- (e + 6)) in
      checked (DT (us + tz * us_per_second))
  end.

(** *** [strptime] with the format ['%Y-%m-%d %H:%M:%S']

    The format is a regular expression whose directives are ordered
    alternatives; the first match wins, and it has to cover the text. *)

Definition matches (A : Type) := list (A * string).

Definition mbind {A B} (p : matches A) (k : A -> string -> matches B) : matches B :=
  flat_map (fun '(a, rest) => k a rest) p.

(** A sequence of character ranges; the digits among them make the value. *)
Fixpoint ranges (rs : list (ascii * ascii)) (acc : Z) (s : string) : matches Z :=
  match rs with
  | [] => [(acc, s)]
  | (lo, hi) :: rs' =>
      match s with
      | String c s' =>
          if (code lo <=? code c) && (code c <=? code hi)
          then ranges rs' (if is_digit c then acc * 10 + digit_val c else acc) s'
          else []
      | EmptyString => []
      end
  end.

Definition alternatives (alts : list (list (ascii * ascii))) (s : string) : matches Z :=
  flat_map (fun rs => ranges rs 0 s) alts.

Definition literal (c : ascii) (s : string) : matches unit :=
  match s with
  | String c' s' => if Ascii.eqb c c' then [(tt, s')] else []
  | EmptyString => []
  end.

(** One or more white-space characters, the longest run first. *)
Fixpoint spaces (s : string) : matches unit :=
  match s with
  | String c s' => if is_space c then (spaces s' ++ [(tt, s')])%list else []
  | EmptyString => []
  end.

Definition d09 : ascii * ascii := ("0"%char, "9"%char).
Definition one (c : ascii) : ascii * ascii := (c, c).

Definition dir_Y := alternatives [[d09; d09; d09; d09]].
Definition dir_m := alternatives
  [[one "1"; ("0", "2")]; [one "0"; ("1", "9")]; [("1", "9")]]%char.
Definition dir_d := alternatives
  [[one "3"; ("0", "1")]; [("1", "2"); d09]; [one "0"; ("1", "9")];
   [("1", "9")]; [one " "; ("1", "9")]]%char.
Definition dir_H := alternatives
  [[one "2"; ("0", "3")]; [("0", "1"); d09]; [d09]]%char.
Definition dir_M := alternatives [[("0", "5"); d09]; [d09]]%char.
Definition dir_S := alternatives
  [[one "6"; ("0", "1")]; [("0", "5"); d09]; [d09]]%char.

Definition lp_format (s : string) : matches fields :=
  mbind (dir_Y s) (fun y s =>
  mbind (literal "-" s) (fun _ s =>
  mbind (dir_m s) (fun mo s =>
  mbind (literal "-" s) (fun _ s =>
  mbind (dir_d s) (fun d s =>
  mbind (spaces s) (fun _ s =>
  mbind (dir_H s) (fun h s =>
  mbind (literal ":" s) (fun _ s =>
  mbind (dir_M s) (fun mi s =>
  mbind (literal ":" s) (fun _ s =>
  mbind (dir_S s) (fun sec s =>
  [(Fields y mo d h mi sec 0, s)]))))))))))).

(** [datetime.strptime(s, '%Y-%m-%d %H:%M:%S')] *)
Definition strptime_lp (s : string) : res datetime :=
  match lp_format s with
  | (f, EmptyString) :: _ =>
      if (1 <=? year f) && (day f <=? days_in_month (year f) (month f))
         && (second f <=? 59)
      then Ok (mk_datetime (year f) (month f) (day f)
                           (hour f) (minute f) (second f) 0)
      else Err (Builtin ValueError)
  | _ => Err (Builtin ValueError)
  end.

End Py.

(** ** The host: state, effects and collaborators *)

Import Py.

(** What an invocation does to the outside, in order. *)
Inductive action :=
| Post (url from to : string)
| Emit (data time : pyval)
| Save (payload : dict).

(** [tick] counts the readings of the clock, [store] is the value kept under
    the checkpoint key, [trace] the actions so far. *)
Record world := World
  { tick : nat;
    store : pyval;
    trace : list action }.

(** The decoded reply of the HTTP client. *)
Record response := Response
  { status_code : Z;
    text : string;
    json : res pyval }.

(** The globals of the module: the local zone, [datetime.datetime.now] and
    [requests.post]. *)
Record runtime := Runtime
  { tz : Z;
    clock : nat -> datetime;
    requests_post : string -> string -> string -> res response }.

(** The [helper] object of the host framework. *)
Record helper_t := Helper
  { get_arg_lastpass_api_url : option string;
    get_global_setting_time_start : pyval;
    get_check_point_fault : option exn;
    save_check_point_fault : dict -> option exn }.

(** A computation ends by returning, by raising an [Exception], or by
    [SystemExit], which no [except Exception] catches. *)
Inductive outcome (A : Type) :=
| Ret (a : A) (w : world)
| Raise (e : exn) (w : world)
| Exit (code : Z) (w : world).
Arguments Ret {A} a w.
Arguments Raise {A} e w.
Arguments Exit {A} code w.

Definition M (A : Type) := world -> outcome A.

Definition ret {A} (a : A) : M A := fun w => Ret a w.

Definition bind {A B} (c : M A) (k : A -> M B) : M B :=
  fun w =>
    match c w with
    | Ret a w' => k a w'
    | Raise e w' => Raise e w'
    | Exit n w' => Exit n w'
    end.

Definition raise {A} (e : exn) : M A := fun w => Raise e w.

Definition sys_exit {A} (n : Z) : M A := fun w => Exit n w.

Definition lift {A} (r : res A) : M A :=
  match r with
  | Ok a => ret a
  | Err e => raise e
  end.

(** [try: body except Exception as e: handler e] *)
Definition try_except {A} (body : M A) (handler : exn -> M A) : M A :=
  fun w =>
    match body w with
    | Raise e w' => handler e w'
    | o => o
    end.

Declare Scope py_scope.
Delimit Scope py_scope with py.
Notation "x <- c ;; k" := (bind c (fun x => k))
  (at level 100, c at next level, right associativity) : py_scope.
Notation "c ;; k" := (bind c (fun _ => k))
  (at level 100, right associativity) : py_scope.
Notation "x <~ c ;; k" := (rbind c (fun x => k))
  (at level 100, c at next level, right associativity) : py_scope.
Open Scope py_scope.

Definition emit (a : action) : M unit :=
  fun w => Ret tt (World (tick w) (store w) (trace w ++ [a])).

Fixpoint for_each {A S} (body : S -> A -> M S) (items : list A) (st : S) : M S :=
  match items with
  | [] => ret st
  | x :: rest => st' <- body st x ;; for_each body rest st'
  end.

(** [range(start, stop, step)] for a positive step. *)
Definition py_range (start stop step : Z) : list Z :=
  map (fun k => start + Z.of_nat k * step)
      (seq 0 (Z.to_nat ((stop - start + step - 1) / step))).

(** ** The source *)

Definition LP_CHECKPOINT_KEY : string := "LastPass_reporting".
Definition STR_TSTART : string := "time_start".
Definition STR_TEND : string := "time_end".
Definition STR_TCURR : string := "time_curr".

Section Input.

Variable rt : runtime.
Variable helper : helper_t.

(** [datetime.datetime.now()] *)
Definition now : M datetime :=
  fun w => Ret (clock rt (tick w)) (World (S (tick w)) (store w) (trace w)).

(** [helper.get_check_point(LP_CHECKPOINT_KEY)] *)
Definition helper_get_check_point : M pyval :=
  fun w =>
    match get_check_point_fault helper with
    | Some e => Raise e w
    | None => Ret (store w) w
    end.

(** [helper.save_check_point(LP_CHECKPOINT_KEY, state_payload)] *)
Definition helper_save_check_point (state_payload : dict) : M unit :=
  fun w =>
    match save_check_point_fault helper state_payload with
    | Some e => Raise e w
    | None =>
        Ret tt (World (tick w) (PyDict state_payload)
                      (trace w ++ [Save state_payload]))
    end.

Definition get_time_lp (time_val : pyval) : res string :=
  match time_val with
  | PyDatetime d => Ok (strftime_lp d)
  | _ =>
      z <~ py_int time_val ;;
      d <~ fromtimestamp_int (tz rt) z ;;
      Ok (strftime_lp d)
  end.

Definition check_datetime (val : pyval) : bool :=
  match val with
  | PyDatetime _ => true
  | _ => false
  end.

(** [except (TypeError, ValueError): return False] *)
Definition or_false (r : res bool) : res bool :=
  match r with
  | Err (Builtin TypeError) | Err (Builtin ValueError) => Ok false
  | _ => r
  end.

Definition check_digit (val : pyval) : res bool :=
  or_false (_ <~ py_int val ;; Ok true).

Definition check_float (val : pyval) : res bool :=
  or_false (f <~ float_of_str (py_str val) ;; Ok (float_pos f)).

Definition prepare_time_value (val : pyval) (field_name : string) : res string :=
  let body : res pyval :=
    digit <~ check_digit val ;;
    if digit then Ok val
    else if check_datetime val then
      match val with
      | PyDatetime d => Ok (PyFloat (timestamp (tz rt) d))
      | _ => Err (Builtin AttributeError)
      end
    else
      f <~ float_of_str (py_str val) ;;
      if float_truthy f then Ok (PyFloat f)
      else Err (Builtin PlainException) in
  match body with
  | Ok v => Ok (py_str v)
  | Err e =>
      (* the message of the IOError reads [e.message] *)
      _ <~ exn_message e ;;
      Err (Builtin IOError)
  end.

Definition save_checkpoint (time_curr time_start time_end : pyval) : M unit :=
  try_except
    (c <- lift (prepare_time_value time_curr STR_TCURR) ;;
     s <- lift (prepare_time_value time_start STR_TSTART) ;;
     e <- lift (prepare_time_value time_end STR_TEND) ;;
     helper_save_check_point
       [(STR_TCURR, PyStr c); (STR_TSTART, PyStr s); (STR_TEND, PyStr e)])
    (fun e =>
       (* the message of the IOError reads [e.message] *)
       _ <- lift (exn_message e) ;;
       raise (Builtin IOError)).

(** [not (read and prepare_time_value(helper, read, field_name))], where
    [read] is the expression that fetches the field. *)
Definition field_invalid (read : res pyval) (field_name : string) : res bool :=
  v <~ read ;;
  if truthy v then
    v' <~ read ;;
    s <~ prepare_time_value v' field_name ;;
    Ok (negb (truthy (PyStr s)))
  else Ok true.

(** The three [state_payload.get] calls of a log message. *)
Definition log_fields (state_payload : pyval) : res unit :=
  _ <~ py_get state_payload STR_TCURR ;;
  _ <~ py_get state_payload STR_TSTART ;;
  _ <~ py_get state_payload STR_TEND ;;
  Ok tt.

Definition get_checkpoint : M pyval :=
  loaded <- try_except
              (v <- helper_get_check_point ;; ret (Some v))
              (fun e =>
                 (* the warning reads [e.message]; then [return None] *)
                 _ <- lift (exn_message e) ;;
                 ret None) ;;
  match loaded with
  | None => ret PyNone
  | Some state_payload =>
      digit <- lift (check_digit state_payload) ;;
      old <- (if digit then ret true else lift (check_float state_payload)) ;;
      if old then
        ret (PyDict [(STR_TCURR, PyNone); (STR_TSTART, state_payload);
                     (STR_TEND, PyNone)])
      else
        returned <-
          try_except
            (bad <- lift (field_invalid (py_get state_payload STR_TCURR)
                                        STR_TCURR) ;;
             (if bad then raise (Builtin PlainException) else ret tt) ;;
             bad <- lift (field_invalid
                            (py_getitem state_payload (PyStr STR_TSTART))
                            STR_TSTART) ;;
             (if bad then raise (Builtin PlainException) else ret tt) ;;
             bad <- lift (field_invalid
                            (py_getitem state_payload (PyStr STR_TEND))
                            STR_TEND) ;;
             (if bad then raise (Builtin PlainException) else ret tt) ;;
             ret None)
            (fun e =>
               (* the warning formats the three fields; then [return None] *)
               _ <- lift (log_fields state_payload) ;;
               ret (Some PyNone)) ;;
        match returned with
        | Some r => ret r
        | None =>
            (* the debug message formats the three fields *)
            _ <- lift (log_fields state_payload) ;;
            ret PyNone
        end
  end.

(** [None] stands for Python's [None], [Some d] for a datetime. *)
Definition get_time_dt (time_val : pyval) : M (option datetime) :=
  if negb (truthy time_val) then ret None
  else
    parsed <-
      try_except
        (digit <- lift (check_digit time_val) ;;
         if digit then
           z <- lift (py_int time_val) ;;
           d <- lift (fromtimestamp_int (tz rt) z) ;;
           ret (Some d)
         else
           float <- lift (check_float time_val) ;;
           if float then
             f <- lift (py_float time_val) ;;
             d <- lift (fromtimestamp_float (tz rt) f) ;;
             ret (Some d)
           else
             d <- lift (strptime_lp (py_str time_val)) ;;
             ret (Some d))
        (fun e => ret None) ;;
    match parsed with
    | None => ret None
    | Some time_dt =>
        n <- now ;;
        let diff := dt_sub n time_dt in
        if (365 * 4 <? days diff) || (days diff <? 0) then ret None
        else ret (Some time_dt)
    end.

Definition convert_time (time_val : pyval) : option datetime :=
  let temp : res datetime :=
    digit <~ check_digit time_val ;;
    if digit then
      z <~ py_int time_val ;;
      fromtimestamp_int (tz rt) z
    else
      float <~ check_float time_val ;;
      if float then
        f <~ py_float time_val ;;
        fromtimestamp_float (tz rt) f
      else strptime_lp (py_str time_val) in
  match temp with
  | Ok d => Some d
  | Err _ => None
  end.

(** *** [collect_events] *)

(** [v - t] where [t] is a datetime or [None]. *)
Definition minus (v : pyval) (t : option datetime) : res pyval :=
  match t with
  | Some d => sub_datetime v d
  | None => Err (Builtin TypeError)
  end.

Definition is_some {A} (o : option A) : bool :=
  match o with
  | Some _ => true
  | None => false
  end.

(** The [rest_url] the requests go to. *)
Definition rest_url : string :=
  match get_arg_lastpass_api_url helper with
  | None => "https://lastpass.com/enterpriseapi.php"
  | Some u =>
      if String.eqb u EmptyString then "https://lastpass.com/enterpriseapi.php"
      else if negb (contains "https://" u) then "https://" ++ u
      else u
  end.

(** [requests.post(rest_url, headers=headers, data=json.dumps(data))] *)
Definition post (from to : string) : M response :=
  emit (Post rest_url from to) ;;
  lift (requests_post rt rest_url from to).

(** [ew.write_event(helper.new_event(data=json.dumps(ev_payload), time=event_time, ...))] *)
Definition write_event (ev_payload event_time : pyval) : M unit :=
  emit (Emit ev_payload event_time).

(** The effective start of the collection (lines 405-426). *)
Definition effective_start (payload_checkpoint : pyval)
           (time_start : option datetime) (time_now : datetime)
  : M (option datetime) :=
  let time_default :=
    replace_microsecond0 (dt_sub_td time_now (timedelta_days 1)) in
  if negb (is_some time_start) && negb (truthy payload_checkpoint) then
    ret (Some time_default)
  else if negb (is_some time_start) && truthy payload_checkpoint then
    get_time_dt payload_checkpoint
  else if is_some time_start && negb (truthy payload_checkpoint) then
    ret time_start
  else
    newer <- (if is_some time_start && truthy payload_checkpoint then
                d <- lift (minus payload_checkpoint time_start) ;;
                lift (py_gt0 d)
              else ret false) ;;
    if newer then
      v <- lift (py_get payload_checkpoint STR_TSTART) ;;
      get_time_dt v
    else ret (Some time_default).

(** [start] and [end] of the request of loop index [i] (lines 437-439). *)
Definition query_window (time_start time_now : datetime) (day_incr i : Z)
  : datetime * datetime :=
  let start := dt_add time_start (timedelta_days i) in
  let end_ := dt_sub_td (dt_add start (timedelta_days day_incr))
                        (timedelta_seconds 1) in
  let end_ := if dt_lt time_now end_ then time_now else end_ in
  (start, end_).

(** One event of a reply (lines 465-491); the loop carries [chk_ptr] and
    [event_time]. *)
Definition record_step (time_start time_now : datetime) (data : pyval)
           (st : Z * pyval) (ev_id : pyval) : M (Z * pyval) :=
  let chk_ptr := fst st in
  item <- lift (py_getitem data ev_id) ;;
  ev_payload <- lift (py_setitem item "event_id" ev_id) ;;
  t <- lift (py_getitem ev_payload (PyStr "Time")) ;;
  event_time <- match convert_time t with
                | None => n <- now ;; ret (PyFloat (timestamp (tz rt) n))
                | Some d => ret (PyStr (strftime_epoch (tz rt) d))
                end ;;
  n <- now ;;
  ev_payload <- lift (py_setitem ev_payload "time_collected"
                                 (PyFloat (timestamp (tz rt) n))) ;;
  write_event ev_payload event_time ;;
  let chk_ptr := chk_ptr + 1 in
  (if chk_ptr mod 1000 =? 0
   then save_checkpoint event_time (PyDatetime time_start) (PyDatetime time_now)
   else ret tt) ;;
  ret (chk_ptr, event_time).

(** The reply of one window (lines 456-496). *)
Definition handle_response (time_start time_now : datetime)
           (resp_ev : response) : M unit :=
  resp_ev_json <- lift (json resp_ev) ;;
  status <- lift (py_getitem resp_ev_json (PyStr "status")) ;;
  ok <- lift (py_contains "OK" status) ;;
  (if negb ok then sys_exit 1 else ret tt) ;;
  data <- lift (py_getitem resp_ev_json (PyStr "data")) ;;
  ids <- lift (py_iter data) ;;
  st <- for_each (record_step time_start time_now data) ids (0, PyNone) ;;
  if truthy (snd st)
  then save_checkpoint (snd st) (PyDatetime time_start) (PyDatetime time_now)
  else ret tt.

(** The body of the window loop (lines 437-500). *)
Definition window_body (time_start time_now : datetime) (day_incr : Z)
           (_ : unit) (i : Z) : M unit :=
  let '(start, end_) := query_window time_start time_now day_incr i in
  from <- lift (get_time_lp (PyDatetime start)) ;;
  to <- lift (get_time_lp (PyDatetime end_)) ;;
  try_except
    (resp_ev <- post from to ;;
     handle_response time_start time_now resp_ev)
    (fun e => raise e).

(** The indices of the window loop (lines 429-436). *)
Definition day_incr_of (diff : timedelta) : Z :=
  if days diff <? 7 then 1 else 3.

Definition window_indices (time_start time_now : datetime) : list Z :=
  let diff := dt_sub time_now time_start in
  py_range 0 (days diff + 1) (day_incr_of diff).

Definition collect_events : M unit :=
  payload_checkpoint <- get_checkpoint ;;
  time_start <- get_time_dt (get_global_setting_time_start helper) ;;
  time_now <- now ;;
  time_start <- effective_start payload_checkpoint time_start time_now ;;
  match time_start with
  | None =>
      (* [time_now - None] *)
      raise (Builtin TypeError)
  | Some time_start =>
      let diff := dt_sub time_now time_start in
      for_each (window_body time_start time_now (day_incr_of diff))
               (py_range 0 (days diff + 1) (day_incr_of diff)) tt
  end.

End Input.

(** The windows the loop asks for, in order. *)
Definition windows (time_start time_now : datetime) : list (datetime * datetime) :=
  map (query_window time_start time_now
                    (day_incr_of (dt_sub time_now time_start)))
      (window_indices time_start time_now).

(** ** Observations and scenarios *)

(** The checkpoint writes of a trace, each with the number of events emitted
    before it and the time of the last of them. *)
Fixpoint checkpoints (count : Z) (last : pyval) (t : list action)
  : list (Z * pyval * dict) :=
  match t with
  | [] => []
  | Emit _ time :: t' => checkpoints (count + 1) time t'
  | Save p :: t' => (count, last, p) :: checkpoints count last t'
  | Post _ _ _ :: t' => checkpoints count last t'
  end.

(** The events and the requests of a trace. *)
Definition is_emit (a : action) : bool :=
  match a with Emit _ _ => true | _ => false end.

Definition is_save (a : action) : bool :=
  match a with Save _ => true | _ => false end.

Fixpoint requests (t : list action) : list (string * string) :=
  match t with
  | [] => []
  | Post _ from to :: t' => (from, to) :: requests t'
  | _ :: t' => requests t'
  end.

(** The world a computation leaves, however it ends. *)
Definition final {A} (o : outcome A) : world :=
  match o with
  | Ret _ w | Raise _ w | Exit _ w => w
  end.

(** A computation that sends no request. *)
Definition quiet {A} (c : M A) : Prop :=
  forall w, requests (trace (final (c w))) = requests (trace w).

(** The record a checkpoint write stores for the given values. *)
Definition state_payload_of (rt : runtime) (time_curr time_start time_end : pyval)
  : res dict :=
  c <~ prepare_time_value rt time_curr STR_TCURR ;;
  s <~ prepare_time_value rt time_start STR_TSTART ;;
  e <~ prepare_time_value rt time_end STR_TEND ;;
  Ok [(STR_TCURR, PyStr c); (STR_TSTART, PyStr s); (STR_TEND, PyStr e)].

(** The event counts after which a window of [n] events is checkpointed:
    every multiple of 1000 among [c+1 .. c+n], and for a whole window the
    count [n] itself once more. *)
Definition marks_from (c : Z) (n : nat) : list Z :=
  filter (fun j => j mod 1000 =? 0) (map (fun k => c + Z.of_nat k) (seq 1 n)).

Definition checkpoint_marks (n : nat) : list Z :=
  (marks_from 0 n ++ match n with O => [] | S _ => [Z.of_nat n] end)%list.

(** A checkpoint write stores the time of the last event before it, the
    start of the collection and [now]. *)
Definition payload_ok (rt : runtime) (time_start time_now : datetime)
           (c : Z * pyval * dict) : Prop :=
  state_payload_of rt (snd (fst c)) (PyDatetime time_start) (PyDatetime time_now)
  = Ok (snd c).

(** A record the driver can emit and checkpoint: a mapping with a [Time]
    whose event time, when it parses, can be stored. *)
Definition record_ok (rt : runtime) (item : pyval) : bool :=
  match item with
  | PyDict r =>
      match dict_get r "Time" with
      | Some t =>
          match convert_time rt t with
          | Some d =>
              match prepare_time_value rt (PyStr (strftime_epoch (tz rt) d))
                                       STR_TCURR with
              | Ok _ => true
              | Err _ => false
              end
          | None => true
          end
      | None => false
      end
  | _ => false
  end.

(** The second a datetime is sent as: the wire format drops the
    microseconds. *)
Definition wire_second (d : datetime) : Z := dt_us d / us_per_second.

(** The wire form of a window. *)
Definition wire (w : datetime * datetime) : string * string :=
  (strftime_lp (fst w), strftime_lp (snd w)).

(** A stored record with its three fields in place. *)
Definition valid_record : pyval :=
  PyDict [(STR_TCURR, PyStr "1704800000.0");
          (STR_TSTART, PyStr "1704758400.0");
          (STR_TEND, PyStr "1704844800.0")].

(** A host in the UTC zone whose clock reads 2024-01-10 00:00:00 and whose
    API answers every request with [reply]. *)
Definition jan10 : datetime := mk_datetime 2024 1 10 0 0 0 0.

Definition reply (status : string) (data : dict) : response :=
  Response 200 "{}" (Ok (PyDict [("status", PyStr status); ("data", PyDict data)])).

Definition host (r : response) : runtime :=
  Runtime 0 (fun _ => jan10) (fun _ _ _ => Ok r).

Definition plain_helper (time_start : pyval) : helper_t :=
  Helper None time_start None (fun _ => None).

(** [n] activity records, [Event1] to [Event<n>], all of one time. *)
Definition activity (time : string) : pyval :=
  PyDict [("Time", PyStr time); ("Username", PyStr "user@example.com");
          ("Action", PyStr "Log in")].

Definition activities (n : nat) : dict :=
  map (fun k => ("Event" ++ str_of_Z (Z.of_nat k), activity "2024-01-09 12:00:00"))
      (seq 1 n).

(** ** More of the source: [validate_input] *)

(** [s.isdigit()] on ASCII text: at least one character, all of them
    digits. *)
Fixpoint all_digits (s : string) : bool :=
  match s with
  | EmptyString => true
  | String c s' => is_digit c && all_digits s'
  end.

Definition isdigit (s : string) : bool :=
  negb (String.eqb s EmptyString) && all_digits s.

(** [s + v] for a string [s] *)
Definition concat_str (s : string) (v : pyval) : res pyval :=
  match v with
  | PyStr u => Ok (PyStr (s ++ u))
  | _ => Err (Builtin TypeError)
  end.

(** [v == None] *)
Definition is_none (v : pyval) : bool :=
  match v with
  | PyNone => true
  | _ => false
  end.

(** [validate_input(helper, definition)], on the two parameters of the
    definition it reads; the result is the [lastpass_api_url] the definition
    holds afterwards. *)
Definition validate_input (rt : runtime) (url time_start : pyval) : M pyval :=
  secure <- lift (py_contains "https://" url) ;;
  if secure then ret url
  else
    http <- lift (py_contains "http" url) ;;
    plain <- (if http then
                secure <- lift (py_contains "https://" url) ;;
                ret (negb secure)
              else ret false) ;;
    if plain then raise (Builtin ValueError)
    else
      dot <- lift (py_contains "." url) ;;
      if negb dot then raise (Builtin ValueError)
      else
        secure <- lift (py_contains "https://" url) ;;
        url' <- (if negb secure then lift (concat_str "https://" url)
                 else ret url) ;;
        try_except
          (if isdigit (py_str time_start) then
             z <- lift (py_int time_start) ;;
             time_dt <- lift (fromtimestamp_int (tz rt) z) ;;
             n <- now rt ;;
             let diff := dt_sub n time_dt in
             if (365 * 4 <? days diff) || (days diff <? 0)
             then raise (Builtin ValueError)
             else ret tt
           else if is_none time_start then ret tt
           else
             _ <- lift (strptime_lp (py_str time_start)) ;;
             ret tt)
          (fun e => raise (Builtin ValueError)) ;;
        ret url'.

(** ** More observations *)

(** The events of a trace, each with its time, in order. *)
Fixpoint emitted (t : list action) : list (pyval * pyval) :=
  match t with
  | [] => []
  | Emit data time :: t' => (data, time) :: emitted t'
  | _ :: t' => emitted t'
  end.

(** The number a text of digits denotes, continuing from [acc]. *)
Fixpoint digits_value (acc : Z) (s : string) : Z :=
  match s with
  | EmptyString => acc
  | String c s' => digits_value (acc * 10 + digit_val c) s'
  end.

(** A text at which a run of digits ends: empty, or starting with a
    character that is neither a digit nor an underscore. *)
Definition ends_digits (s : string) : bool :=
  match s with
  | EmptyString => true
  | String c _ => negb (is_digit c) && negb (Ascii.eqb c "_")
  end.

(** The range [get_time_dt] accepts, against the clock reading [n]. *)
Definition in_range (n d : datetime) : bool :=
  negb ((365 * 4 <? days (dt_sub n d)) || (days (dt_sub n d) <? 0)).

(** * Properties *)

(** ** The builtins on sample values *)

Example int_of_str_samples :
  int_of_str " 1_000 " = Ok 1000
  /\ int_of_str "-5" = Ok (-5)
  /\ int_of_str "1704801600.000000" = Err (Builtin ValueError)
  /\ int_of_str "1__0" = Err (Builtin ValueError).
Proof. repeat split. Qed.

Example float_of_str_samples :
  float_of_str "1704801600.000000" = Ok (FDec 1704801600000000 (-6))
  /\ float_of_str " -1.5e3 " = Ok (FDec (-15) 2)
  /\ float_of_str "0.000000" = Ok (FDec 0 0)
  /\ float_of_str "1e-400" = Ok (FDec 0 0)
  /\ float_of_str "1e400" = Ok (FInf false)
  /\ float_of_str "NaN" = Ok FNan
  /\ float_of_str "None" = Err (Builtin ValueError).
Proof. repeat split. Qed.

Example str_of_float_samples :
  map str_of_float [FDec 1704801600000000 (-6); FDec 15 (-1); FDec 1 16;
                    FDec 1 (-5); FDec 1704801600123456 (-6)]
  = ["1704801600.0"; "1.5"; "1e+16"; "1e-05"; "1704801600.123456"].
Proof. reflexivity. Qed.

Example strptime_lp_samples :
  strptime_lp "2024-01-09 12:00:00" = Ok (mk_datetime 2024 1 9 12 0 0 0)
  /\ strptime_lp "2024-1-9 3:4:5" = Ok (mk_datetime 2024 1 9 3 4 5 0)
  /\ strptime_lp "2024-02-30 12:00:00" = Err (Builtin ValueError)
  /\ strptime_lp "2024-01-09 12:00:00.5" = Err (Builtin ValueError)
  /\ strptime_lp "1704801600" = Err (Builtin ValueError).
Proof. repeat split. Qed.

Example calendar_samples :
  civil_from_days (days_from_civil 2024 2 29) = (2024, 2, 29)
  /\ days_from_civil 1970 1 1 = 0
  /\ dt_us jan10 = 1704844800 * us_per_second
  /\ strftime_lp (dt_sub_td jan10 (timedelta_seconds 1)) = "2024-01-09 23:59:59"
  /\ strftime_epoch (-28800) (mk_datetime 2024 1 9 12 0 0 5) = "1704830400.000005"
  /\ py_str (PyDict [(STR_TCURR, PyNone); (STR_TSTART, PyInt 1704758400)])
     = "{'time_curr': None, 'time_start': 1704758400}".
Proof. repeat split. Qed.

(** ** Text that is no number and no date *)

Lemma float_of_str_brace : forall s,
  float_of_str (String "{" s) = Err (Builtin ValueError).
Proof. intros s. reflexivity. Qed.

Lemma float_of_str_bracket : forall s,
  float_of_str (String "[" s) = Err (Builtin ValueError).
Proof. intros s. reflexivity. Qed.

Lemma strptime_lp_brace : forall s,
  strptime_lp (String "{" s) = Err (Builtin ValueError).
Proof. intros s. reflexivity. Qed.

Lemma py_str_dict : forall m, exists s, py_str (PyDict m) = String "{" s.
Proof. intros m. eexists. reflexivity. Qed.

Lemma py_str_list : forall l, exists s, py_str (PyList l) = String "[" s.
Proof. intros l. eexists. reflexivity. Qed.

Lemma check_digit_dict : forall m, check_digit (PyDict m) = Ok false.
Proof. reflexivity. Qed.

Lemma check_float_dict : forall m, check_float (PyDict m) = Ok false.
Proof.
  intros m. unfold check_float.
  destruct (py_str_dict m) as [s ->]. now rewrite float_of_str_brace.
Qed.

Lemma check_float_list : forall l, check_float (PyList l) = Ok false.
Proof.
  intros l. unfold check_float.
  destruct (py_str_list l) as [s ->]. now rewrite float_of_str_bracket.
Qed.

Lemma get_time_lp_datetime : forall rt d,
  get_time_lp rt (PyDatetime d) = Ok (strftime_lp d).
Proof. reflexivity. Qed.

(** ** Normalising a time value for storage *)

(** Whatever fails inside [prepare_time_value] is an exception of the
    interpreter, so reading its [message] raises [AttributeError]: the
    [IOError] is never built. *)
Lemma prepare_time_value_outcome : forall rt val field_name,
  (exists s, prepare_time_value rt val field_name = Ok s)
  \/ prepare_time_value rt val field_name = Err (Builtin AttributeError).
Proof.
  intros rt val field_name. unfold prepare_time_value.
  assert (Hb : forall v, (exists b, check_digit v = Ok b)
                         \/ exists c, check_digit v = Err (Builtin c)).
  { intros v. unfold check_digit.
    destruct v as [| b | z | [| n | m e] | s | d | t | l | m]; cbn; eauto.
    unfold int_of_str.
    destruct (sign (lstrip s)) as [neg s1].
    destruct (digits 0 s1) as [[v cnt] rest].
    destruct ((0 <? cnt) && all_space rest); cbn; eauto. }
  destruct (Hb val) as [[b ->] | [c ->]]; cbn; [| now right].
  destruct b; [left; eauto |].
  destruct (check_datetime val) eqn:Hdt.
  - destruct val; try discriminate. left; eauto.
  - assert (Hf : forall s, (exists f, float_of_str s = Ok f)
                           \/ float_of_str s = Err (Builtin ValueError)).
    { intros s. destruct (float_of_str s) as [f | e] eqn:E; eauto.
      right. revert E. unfold float_of_str.
      destruct (sign (lstrip s)) as [neg s1].
      repeat match goal with
             | |- context [if ?c then _ else _] => destruct c
             | |- context [let '(_, _) := ?p in _] => destruct p
             | |- context [match ?x with String _ _ => _ | EmptyString => _ end] =>
                 destruct x
             end; cbn; try congruence. }
    destruct (Hf (py_str val)) as [[f ->] | ->]; cbn; [| now right].
    destruct (float_truthy f); cbn; eauto.
Qed.

(** ** The checkpoint store adapter *)

(** What [save_checkpoint] does when nothing fails: one write of the three
    normalised values. *)
Lemma save_checkpoint_ok : forall rt helper time_curr time_start time_end c s e w,
  prepare_time_value rt time_curr STR_TCURR = Ok c ->
  prepare_time_value rt time_start STR_TSTART = Ok s ->
  prepare_time_value rt time_end STR_TEND = Ok e ->
  save_check_point_fault helper
    [(STR_TCURR, PyStr c); (STR_TSTART, PyStr s); (STR_TEND, PyStr e)] = None ->
  save_checkpoint rt helper time_curr time_start time_end w
  = Ret tt (World (tick w)
                  (PyDict [(STR_TCURR, PyStr c); (STR_TSTART, PyStr s);
                           (STR_TEND, PyStr e)])
                  (trace w ++ [Save [(STR_TCURR, PyStr c); (STR_TSTART, PyStr s);
                                     (STR_TEND, PyStr e)]])).
Proof.
  intros rt helper tc ts te c s e w Hc Hs He Hw.
  unfold save_checkpoint, try_except, bind, helper_save_check_point.
  rewrite Hc, Hs, He. cbn. now rewrite Hw.
Qed.

(** A failed write whose exception carries a [message] is the one case in
    which the [IOError] is raised. *)
Lemma save_checkpoint_write_fault : forall rt helper time_curr time_start time_end c s e w x,
  prepare_time_value rt time_curr STR_TCURR = Ok c ->
  prepare_time_value rt time_start STR_TSTART = Ok s ->
  prepare_time_value rt time_end STR_TEND = Ok e ->
  save_check_point_fault helper
    [(STR_TCURR, PyStr c); (STR_TSTART, PyStr s); (STR_TEND, PyStr e)] = Some x ->
  save_checkpoint rt helper time_curr time_start time_end w
  = match exn_message x with
    | Ok _ => Raise (Builtin IOError) w
    | Err a => Raise a w
    end.
Proof.
  intros rt helper tc ts te c s e w x Hc Hs He Hw.
  unfold save_checkpoint, try_except, bind, helper_save_check_point.
  rewrite Hc, Hs, He. cbn. rewrite Hw.
  destruct (exn_message x); reflexivity.
Qed.

(** When one of the three values cannot be normalised, [save_checkpoint]
    raises [AttributeError] and writes nothing. *)
Lemma save_checkpoint_unnormalisable :
  forall rt helper time_curr time_start time_end w,
    match prepare_time_value rt time_curr STR_TCURR,
          prepare_time_value rt time_start STR_TSTART,
          prepare_time_value rt time_end STR_TEND with
    | Ok _, Ok _, Ok _ => False
    | _, _, _ => True
    end ->
    save_checkpoint rt helper time_curr time_start time_end w
    = Raise (Builtin AttributeError) w.
Proof.
  intros rt helper tc ts te w H.
  unfold save_checkpoint, try_except, bind.
  destruct (prepare_time_value_outcome rt tc STR_TCURR) as [[c Hc] | Hc];
    rewrite Hc in *; [| reflexivity].
  destruct (prepare_time_value_outcome rt ts STR_TSTART) as [[s Hs] | Hs];
    rewrite Hs in *; [| reflexivity].
  destruct (prepare_time_value_outcome rt te STR_TEND) as [[e He] | He];
    rewrite He in *; [contradiction | reflexivity].
Qed.

(** The exceptions that leave [save_checkpoint]: [AttributeError], or the
    [IOError] when the store failed with an exception that has a
    [message]. *)
Lemma save_checkpoint_raise_cases :
  forall rt helper time_curr time_start time_end w e w',
    save_checkpoint rt helper time_curr time_start time_end w = Raise e w' ->
    e = Builtin AttributeError
    \/ (e = Builtin IOError
        /\ exists p name message,
            save_check_point_fault helper p = Some (Foreign name (Some message))).
Proof.
  intros rt helper tc ts te w e w'.
  unfold save_checkpoint, try_except, bind, helper_save_check_point.
  destruct (prepare_time_value_outcome rt tc STR_TCURR) as [[c ->] | ->];
    [| cbn; intros [= <- <-]; now left].
  destruct (prepare_time_value_outcome rt ts STR_TSTART) as [[s ->] | ->];
    [| cbn; intros [= <- <-]; now left].
  destruct (prepare_time_value_outcome rt te STR_TEND) as [[x ->] | ->];
    [| cbn; intros [= <- <-]; now left].
  cbn [lift ret].
  destruct (save_check_point_fault helper _) as [[cl | name [msg |]] |] eqn:Hf;
    cbn; intros H; try discriminate; injection H as <- <-; eauto 6.
Qed.

(** C9 (the code departs from the claim): a value that cannot be normalised,
    here [None] as [time_curr], makes [save_checkpoint] raise
    [AttributeError], not the [IOError] its handler means to raise; so does a
    failed write whose exception is one of the interpreter's. *)
Theorem save_checkpoint_raises_AttributeError :
  forall rt url setting rf time_start time_end w,
    (forall sf,
        save_checkpoint rt (Helper url setting rf sf) PyNone time_start time_end w
        = Raise (Builtin AttributeError) w)
    /\ (forall c,
           save_checkpoint rt (Helper url setting rf (fun _ => Some (Builtin c)))
                           (PyInt 1704801600) (PyInt 1704758400) (PyInt 1704844800) w
           = Raise (Builtin AttributeError) w).
Proof.
  intros rt url setting rf ts te w. split.
  - intros sf. reflexivity.
  - intros c. reflexivity.
Qed.

(** Over a stored mapping the validation may pass or fail; the function
    answers [None] either way. *)
Lemma get_checkpoint_dict : forall rt helper m tk tr,
  get_check_point_fault helper = None ->
  get_checkpoint rt helper (World tk (PyDict m) tr)
  = Ret PyNone (World tk (PyDict m) tr).
Proof.
  intros rt helper m tk tr Hf.
  unfold get_checkpoint, bind, try_except, helper_get_check_point.
  cbn [store]. rewrite Hf. cbn [ret].
  rewrite check_digit_dict. cbn [lift ret].
  rewrite check_float_dict. cbn [lift ret].
  repeat match goal with
         | |- context [lift (field_invalid rt ?r ?f)] =>
             destruct (field_invalid rt r f) as [[|] | ?]; cbn
         end; reflexivity.
Qed.

(** C1 (the code departs from the claim): a stored mapping whose three
    fields are present and normalisable is validated and then dropped:
    [get_checkpoint] returns [None] for it, as it does for every mapping. *)
Theorem get_checkpoint_valid_record_returns_None :
  forall rt url setting sf tk tr,
    (prepare_time_value rt (PyStr "1704800000.0") STR_TCURR = Ok "1704800000.0"
     /\ prepare_time_value rt (PyStr "1704758400.0") STR_TSTART = Ok "1704758400.0"
     /\ prepare_time_value rt (PyStr "1704844800.0") STR_TEND = Ok "1704844800.0"
     /\ get_checkpoint rt (Helper url setting None sf) (World tk valid_record tr)
        = Ret PyNone (World tk valid_record tr))
    /\ forall m,
        get_checkpoint rt (Helper url setting None sf) (World tk (PyDict m) tr)
        = Ret PyNone (World tk (PyDict m) tr).
Proof.
  intros. split.
  - repeat split; reflexivity.
  - intros m. now apply get_checkpoint_dict.
Qed.

(** A value that is neither a number nor a mapping has no [get]: the handler
    that should discard it raises while it formats its warning. *)
Lemma get_checkpoint_list : forall rt helper l w,
  get_check_point_fault helper = None ->
  store w = PyList l ->
  get_checkpoint rt helper w = Raise (Builtin AttributeError) w.
Proof.
  intros rt helper l w Hf Hs.
  unfold get_checkpoint, bind, try_except, helper_get_check_point.
  rewrite Hf, Hs. cbn [ret].
  assert (Hd : check_digit (PyList l) = Ok false) by reflexivity.
  rewrite Hd. cbn [lift ret]. rewrite check_float_list. reflexivity.
Qed.

(** A bare number is upgraded to the record with only [time_start]. *)
Lemma get_checkpoint_legacy : forall rt helper z w,
  get_check_point_fault helper = None ->
  store w = PyInt z ->
  get_checkpoint rt helper w
  = Ret (PyDict [(STR_TCURR, PyNone); (STR_TSTART, PyInt z); (STR_TEND, PyNone)]) w.
Proof.
  intros rt helper z w Hf Hs.
  unfold get_checkpoint, bind, try_except, helper_get_check_point.
  rewrite Hf, Hs. reflexivity.
Qed.

(** C8 (the code departs from the claim): a stored value of a wrong type, a
    list or a text that is no number, makes [get_checkpoint] raise
    [AttributeError] instead of answering [None]; so does the [None] the
    store gives when nothing was saved yet. *)
Theorem get_checkpoint_wrong_type_raises :
  forall rt url setting sf tk tr,
    (forall l,
        get_checkpoint rt (Helper url setting None sf) (World tk (PyList l) tr)
        = Raise (Builtin AttributeError) (World tk (PyList l) tr))
    /\ get_checkpoint rt (Helper url setting None sf) (World tk (PyStr "corrupt") tr)
       = Raise (Builtin AttributeError) (World tk (PyStr "corrupt") tr)
    /\ get_checkpoint rt (Helper url setting None sf) (World tk PyNone tr)
       = Raise (Builtin AttributeError) (World tk PyNone tr).
Proof.
  intros rt url setting sf tk tr. split; [| split].
  - intros l. now apply get_checkpoint_list with (l := l).
  - reflexivity.
  - reflexivity.
Qed.

(** ** The window planner: choosing the start *)

(** A mapping is no time value: [get_time_dt] answers [None] for it. *)
Lemma get_time_dt_dict : forall rt kv m w,
  get_time_dt rt (PyDict (kv :: m)) w = Ret None w.
Proof.
  intros rt kv m w. unfold get_time_dt, bind, try_except.
  cbn [truthy negb]. rewrite check_digit_dict. cbn [lift ret].
  rewrite check_float_dict. cbn [lift ret].
  destruct (py_str_dict (kv :: m)) as [s ->].
  now rewrite strptime_lp_brace.
Qed.

(** C2 (the code departs from the claim): with no operator start and a
    loaded checkpoint, the whole record, not its [time_start], is handed to
    [get_time_dt]; the start comes out as [None] and [time_now - None]
    raises [TypeError]. *)
Theorem checkpoint_only_start_is_lost :
  forall rt url sf z tk tr time_now,
    let loaded := PyDict [(STR_TCURR, PyNone); (STR_TSTART, PyInt z);
                          (STR_TEND, PyNone)] in
    get_checkpoint rt (Helper url PyNone None sf) (World tk (PyInt z) tr)
    = Ret loaded (World tk (PyInt z) tr)
    /\ effective_start rt loaded None time_now (World tk (PyInt z) tr)
       = Ret None (World tk (PyInt z) tr)
    /\ collect_events rt (Helper url PyNone None sf) (World tk (PyInt z) tr)
       = Raise (Builtin TypeError) (World (S tk) (PyInt z) tr).
Proof.
  intros rt url sf z tk tr time_now loaded.
  assert (Hg : get_checkpoint rt (Helper url PyNone None sf) (World tk (PyInt z) tr)
               = Ret loaded (World tk (PyInt z) tr)) by reflexivity.
  assert (He : forall n w, effective_start rt loaded None n w = Ret None w).
  { intros n w. unfold effective_start. cbn [is_some negb andb truthy loaded].
    apply get_time_dt_dict. }
  split; [exact Hg |]. split; [apply He |].
  unfold collect_events, bind. rewrite Hg.
  cbn [get_global_setting_time_start get_time_dt truthy negb ret now tick store trace].
  now rewrite He.
Qed.

(** C3 (the code departs from the claim): with an operator start and a
    loaded checkpoint, the test of the fourth branch subtracts a datetime
    from the record and raises [TypeError], whatever the two times are. *)
Theorem both_present_raises_TypeError :
  forall rt kv m time_start time_now w,
    effective_start rt (PyDict (kv :: m)) (Some time_start) time_now w
    = Raise (Builtin TypeError) w
    /\ collect_events (host (reply "OK" []))
                      (plain_helper (PyStr "2024-01-05 00:00:00"))
                      (World 0 (PyInt 1704672000) [])
       = Raise (Builtin TypeError) (World 2 (PyInt 1704672000) []).
Proof.
  intros. split; reflexivity.
Qed.

(** C4, as the code has it: with no operator start and no loaded checkpoint
    the start is [now] minus one day, cut to the second; for
    now = 2024-01-10 00:00:00 the loop asks for two windows, the day before
    and the instant [now] itself.  The last part runs the whole input on a
    host whose stored value is an empty mapping, which [get_checkpoint]
    discards. *)
Theorem default_start_and_its_windows :
  forall rt time_now w,
    effective_start rt PyNone None time_now w
    = Ret (Some (replace_microsecond0 (dt_sub_td time_now (timedelta_days 1)))) w
    /\ dt_us (replace_microsecond0 (dt_sub_td time_now (timedelta_days 1)))
       = (dt_us time_now - us_per_day) / us_per_second * us_per_second
    /\ windows (replace_microsecond0 (dt_sub_td jan10 (timedelta_days 1))) jan10
       = [(mk_datetime 2024 1 9 0 0 0 0, mk_datetime 2024 1 9 23 59 59 0);
          (jan10, jan10)]
    /\ collect_events (host (reply "OK" [])) (plain_helper PyNone)
                      (World 0 (PyDict []) [])
       = Ret tt (World 1 (PyDict [])
                       [Post "https://lastpass.com/enterpriseapi.php"
                             "2024-01-09 00:00:00" "2024-01-09 23:59:59";
                        Post "https://lastpass.com/enterpriseapi.php"
                             "2024-01-10 00:00:00" "2024-01-10 00:00:00"]).
Proof.
  intros rt time_now w. split; [reflexivity |]. split; [| split; reflexivity].
  unfold replace_microsecond0, dt_sub_td, timedelta_days. cbn [dt_us td_us].
  replace (1 * us_per_day) with us_per_day by lia.
  pose proof (Z.div_mod (dt_us time_now - us_per_day) us_per_second) as H.
  unfold us_per_second in *. lia.
Qed.

(** C4, the claim as written fails: the one window [2024-01-09, 2024-01-10]
    is not what the loop asks for. *)
Lemma default_windows_are_not_one :
  windows (replace_microsecond0 (dt_sub_td jan10 (timedelta_days 1))) jan10
  <> [(mk_datetime 2024 1 9 0 0 0 0, jan10)]
  /\ List.length (windows (replace_microsecond0 (dt_sub_td jan10 (timedelta_days 1)))
                          jan10) = 2%nat.
Proof.
  split; [discriminate | reflexivity].
Qed.

(** ** The window planner: cutting the span into windows *)

Lemma us_per_day_value : us_per_day = 86400000000.
Proof. reflexivity. Qed.

Lemma us_per_second_value : us_per_second = 1000000.
Proof. reflexivity. Qed.

(** [t.days] is the floor of the span in days. *)
Lemma days_bounds : forall t,
  days t * us_per_day <= td_us t < days t * us_per_day + us_per_day.
Proof.
  intros t. unfold days.
  pose proof (Z.div_mod (td_us t) us_per_day) as H.
  pose proof (Z.mod_pos_bound (td_us t) us_per_day) as Hm.
  rewrite us_per_day_value in *. lia.
Qed.

Lemma day_incr_of_cases : forall diff,
  (days diff < 7 /\ day_incr_of diff = 1) \/ (7 <= days diff /\ day_incr_of diff = 3).
Proof.
  intros diff. unfold day_incr_of.
  destruct (Z.ltb_spec (days diff) 7); [left | right]; auto.
Qed.

(** The [k]-th index of [range(0, stop, step)]. *)
Lemma py_range_nth : forall stop step k i,
  0 < step ->
  nth_error (py_range 0 stop step) k = Some i ->
  i = Z.of_nat k * step /\ i < stop.
Proof.
  intros stop step k i Hstep H. unfold py_range in H.
  rewrite nth_error_map, nth_error_seq in H.
  destruct (Nat.ltb_spec k (Z.to_nat ((stop - 0 + step - 1) / step))) as [Hk | Hk];
    [| discriminate].
  cbn in H. injection H as <-. split; [lia |].
  assert (Hq : Z.of_nat k + 1 <= (stop - 0 + step - 1) / step) by lia.
  pose proof (Z.mul_div_le (stop - 0 + step - 1) step Hstep) as Hle.
  nia.
Qed.

(** The [k]-th window starts [k] chunks after the start, within the span. *)
Lemma windows_nth : forall time_start time_now k w,
  nth_error (windows time_start time_now) k = Some w ->
  let c := day_incr_of (dt_sub time_now time_start) in
  w = query_window time_start time_now c (Z.of_nat k * c)
  /\ Z.of_nat k * c <= days (dt_sub time_now time_start).
Proof.
  intros ts tn k w H c. unfold windows, window_indices in H.
  rewrite nth_error_map in H. fold c in H.
  destruct (nth_error (py_range 0 (days (dt_sub tn ts) + 1) c) k) as [i |] eqn:E;
    [| discriminate].
  cbn in H. injection H as <-.
  assert (Hc : 0 < c)
    by (subst c; destruct (day_incr_of_cases (dt_sub tn ts)) as [[_ ->] | [_ ->]]; lia).
  apply py_range_nth in E; [| exact Hc]. destruct E as [-> Hi].
  split; [reflexivity | lia].
Qed.

(** The bounds of one window of the loop. *)
Lemma query_window_bounds : forall time_start time_now c i,
  0 < c -> 0 <= i <= days (dt_sub time_now time_start) ->
  let w := query_window time_start time_now c i in
  dt_us (fst w) = dt_us time_start + i * us_per_day
  /\ dt_us (snd w) = Z.min (dt_us (fst w) + c * us_per_day - us_per_second)
                           (dt_us time_now)
  /\ dt_us (fst w) <= dt_us (snd w) <= dt_us time_now.
Proof.
  intros ts tn c i Hc Hi w. subst w.
  pose proof (days_bounds (dt_sub tn ts)) as Hd.
  unfold query_window, dt_lt, dt_add, dt_sub_td, timedelta_days, timedelta_seconds,
    dt_sub in *.
  cbn [dt_us td_us fst snd] in *.
  rewrite us_per_day_value, us_per_second_value in *.
  destruct (Z.ltb_spec (dt_us tn)
              (dt_us ts + i * 86400000000 + c * 86400000000 - 1 * 1000000));
    cbn [dt_us fst snd]; nia.
Qed.

(** C5: the chunk is one day for a span under seven days and three days
    otherwise; the [k]-th window starts [k] chunks after the start and ends a
    second before the next chunk, or at [now] if that comes first; a ten-day
    span gives four windows, three of three days and a last one of one day
    that ends at [now]. *)
Theorem chunked_windows :
  forall time_start time_now,
    let diff := dt_sub time_now time_start in
    let c := day_incr_of diff in
    (days diff < 7 -> c = 1)
    /\ (7 <= days diff -> c = 3)
    /\ (forall k w,
           nth_error (windows time_start time_now) k = Some w ->
           dt_us (fst w) = dt_us time_start + Z.of_nat k * c * us_per_day
           /\ dt_us (snd w) = Z.min (dt_us (fst w) + c * us_per_day - us_per_second)
                                    (dt_us time_now))
    /\ (days diff = 10 ->
        map (fun w => (dt_us (fst w) - dt_us time_start,
                       dt_us (snd w) - dt_us time_start))
            (windows time_start time_now)
        = [(0, 3 * us_per_day - us_per_second);
           (3 * us_per_day, 6 * us_per_day - us_per_second);
           (6 * us_per_day, 9 * us_per_day - us_per_second);
           (9 * us_per_day, dt_us time_now - dt_us time_start)]
        /\ days (dt_sub time_now (dt_add time_start (timedelta_days 9))) = 1).
Proof.
  intros ts tn diff c.
  assert (Hc : 0 < c)
    by (subst c; destruct (day_incr_of_cases diff) as [[_ ->] | [_ ->]]; lia).
  split; [| split; [| split]].
  - intros H. subst c. destruct (day_incr_of_cases diff) as [[_ ->] | [H7 _]]; lia.
  - intros H. subst c. destruct (day_incr_of_cases diff) as [[H7 _] | [_ ->]]; lia.
  - intros k w H. apply windows_nth in H. fold diff c in H. destruct H as [-> Hk].
    destruct (query_window_bounds ts tn c (Z.of_nat k * c) Hc) as (Hs & He & _).
    { fold diff. nia. }
    split; [rewrite Hs; ring | exact He].
  - intros H10.
    pose proof (days_bounds diff) as Hd. rewrite H10 in Hd.
    assert (Hc3 : c = 3)
      by (subst c; destruct (day_incr_of_cases diff) as [[? _] | [_ ->]]; lia).
    unfold windows, window_indices. fold diff c. rewrite H10, Hc3.
    change (py_range 0 (10 + 1) 3) with [0; 3; 6; 9].
    subst diff. unfold days, query_window, dt_lt, dt_add, dt_sub_td, timedelta_days,
      timedelta_seconds, dt_sub in *.
    cbn [map dt_us td_us fst snd] in *.
    rewrite us_per_day_value, us_per_second_value in *.
    repeat match goal with
           | |- context [?a <? ?b] => destruct (Z.ltb_spec a b); try lia
           end.
    cbn [dt_us fst snd]. split.
    + repeat match goal with
             | |- _ :: _ = _ :: _ => f_equal
             | |- (_, _) = (_, _) => f_equal
             end; lia.
    + symmetry. apply Z.div_unique with (r := dt_us tn - dt_us ts - 10 * 86400000000); lia.
Qed.

(** C5 at a span of ten days and a half. *)
Lemma chunked_windows_witness :
  days (dt_sub (mk_datetime 2024 1 10 12 0 0 0) (mk_datetime 2023 12 31 0 0 0 0)) = 10
  /\ map wire (windows (mk_datetime 2023 12 31 0 0 0 0) (mk_datetime 2024 1 10 12 0 0 0))
     = [("2023-12-31 00:00:00", "2024-01-02 23:59:59");
        ("2024-01-03 00:00:00", "2024-01-05 23:59:59");
        ("2024-01-06 00:00:00", "2024-01-08 23:59:59");
        ("2024-01-09 00:00:00", "2024-01-10 12:00:00")]
  /\ map (fun w => (dt_us (fst w) - dt_us (mk_datetime 2023 12 31 0 0 0 0),
                    dt_us (snd w) - dt_us (mk_datetime 2023 12 31 0 0 0 0)))
         (windows (mk_datetime 2023 12 31 0 0 0 0) (mk_datetime 2024 1 10 12 0 0 0))
     = [(0, 3 * us_per_day - us_per_second);
        (3 * us_per_day, 6 * us_per_day - us_per_second);
        (6 * us_per_day, 9 * us_per_day - us_per_second);
        (9 * us_per_day, dt_us (mk_datetime 2024 1 10 12 0 0 0)
                         - dt_us (mk_datetime 2023 12 31 0 0 0 0))].
Proof.
  split; [reflexivity |]. split; [reflexivity |].
  apply (chunked_windows (mk_datetime 2023 12 31 0 0 0 0)
                         (mk_datetime 2024 1 10 12 0 0 0)).
  reflexivity.
Defined.

(** ** The requests of a run *)

Lemma requests_app : forall t1 t2,
  requests (t1 ++ t2) = (requests t1 ++ requests t2)%list.
Proof.
  induction t1 as [| [url from to | data time | p] t1 IH]; intros t2; cbn;
    rewrite ?IH; reflexivity.
Qed.

Lemma quiet_ret : forall A (a : A), quiet (ret a).
Proof. intros A a w. reflexivity. Qed.

Lemma quiet_raise : forall A e, quiet (@raise A e).
Proof. intros A e w. reflexivity. Qed.

Lemma quiet_sys_exit : forall A n, quiet (@sys_exit A n).
Proof. intros A n w. reflexivity. Qed.

Lemma quiet_lift : forall A (r : res A), quiet (lift r).
Proof. intros A [a | e] w; reflexivity. Qed.

Lemma quiet_bind : forall A B (c : M A) (k : A -> M B),
  quiet c -> (forall a, quiet (k a)) -> quiet (bind c k).
Proof.
  intros A B c k Hc Hk w. unfold bind. specialize (Hc w).
  destruct (c w) as [a w' | e w' | n w']; cbn [final] in *; auto.
  now rewrite Hk.
Qed.

Lemma quiet_try_except : forall A (body : M A) handler,
  quiet body -> (forall e, quiet (handler e)) -> quiet (try_except body handler).
Proof.
  intros A body handler Hb Hh w. unfold try_except. specialize (Hb w).
  destruct (body w) as [a w' | e w' | n w']; cbn [final] in *; auto.
  now rewrite Hh.
Qed.

Lemma quiet_if : forall A (b : bool) (c1 c2 : M A),
  quiet c1 -> quiet c2 -> quiet (if b then c1 else c2).
Proof. intros A [|]; auto. Qed.

Lemma quiet_now : forall rt, quiet (now rt).
Proof. intros rt w. reflexivity. Qed.

Lemma quiet_write_event : forall ev_payload event_time,
  quiet (write_event ev_payload event_time).
Proof.
  intros d t w. unfold write_event, emit. cbn [final trace].
  rewrite requests_app. cbn. apply app_nil_r.
Qed.

Lemma quiet_helper_save_check_point : forall helper p,
  quiet (helper_save_check_point helper p).
Proof.
  intros helper p w. unfold helper_save_check_point.
  destruct (save_check_point_fault helper p); cbn [final trace]; [reflexivity |].
  rewrite requests_app. cbn. apply app_nil_r.
Qed.

Create HintDb quiet.
#[local] Hint Resolve quiet_ret quiet_raise quiet_sys_exit quiet_lift quiet_now
  quiet_write_event quiet_helper_save_check_point quiet_if : quiet.

Ltac quiet_steps :=
  repeat first
    [ apply quiet_bind; [| intros ?]
    | apply quiet_try_except; [| intros ?]
    | apply quiet_if
    | match goal with
      | |- quiet (match ?x with _ => _ end) => destruct x
      end
    | solve [auto with quiet] ].

Lemma quiet_save_checkpoint : forall rt helper time_curr time_start time_end,
  quiet (save_checkpoint rt helper time_curr time_start time_end).
Proof. intros. unfold save_checkpoint. quiet_steps. Qed.

Lemma quiet_for_each : forall A S (body : S -> A -> M S) items st,
  (forall st x, quiet (body st x)) -> quiet (for_each body items st).
Proof.
  intros A S body items. induction items as [| x items IH]; intros st Hb; cbn.
  - apply quiet_ret.
  - apply quiet_bind; auto.
Qed.

Lemma quiet_record_step : forall rt helper time_start time_now data st ev_id,
  quiet (record_step rt helper time_start time_now data st ev_id).
Proof.
  intros. unfold record_step. pose proof quiet_save_checkpoint. quiet_steps.
Qed.

Lemma quiet_handle_response : forall rt helper time_start time_now resp_ev,
  quiet (handle_response rt helper time_start time_now resp_ev).
Proof.
  intros. unfold handle_response.
  pose proof quiet_save_checkpoint. pose proof quiet_record_step.
  quiet_steps. apply quiet_for_each. auto.
Qed.

(** The request is recorded before the client answers or fails. *)
Lemma post_outcome : forall rt helper from to w,
  post rt helper from to w
  = let w1 := World (tick w) (store w)
                    (trace w ++ [Post (rest_url helper) from to]) in
    match requests_post rt (rest_url helper) from to with
    | Ok resp_ev => Ret resp_ev w1
    | Err e => Raise e w1
    end.
Proof.
  intros rt helper from to w. unfold post, bind, emit, lift. cbn.
  destruct (requests_post rt (rest_url helper) from to); reflexivity.
Qed.

(** A window sends its one request, whatever becomes of the reply. *)
Lemma window_body_requests : forall rt helper time_start time_now day_incr i w,
  requests (trace (final (window_body rt helper time_start time_now day_incr tt i w)))
  = (requests (trace w)
     ++ [wire (query_window time_start time_now day_incr i)])%list.
Proof.
  intros rt helper ts tn c i w. unfold window_body, wire.
  destruct (query_window ts tn c i) as [start end_]. cbn [fst snd].
  rewrite !get_time_lp_datetime. cbn [lift]. unfold bind at 1 2. cbn [ret].
  unfold try_except. unfold bind at 1. rewrite post_outcome. cbv zeta.
  set (w1 := World (tick w) (store w)
                   (trace w ++ [Post (rest_url helper) (strftime_lp start)
                                     (strftime_lp end_)])).
  assert (Hw1 : requests (trace w1)
                = (requests (trace w) ++ [(strftime_lp start, strftime_lp end_)])%list).
  { subst w1. cbn [trace]. now rewrite requests_app. }
  destruct (requests_post rt (rest_url helper) (strftime_lp start) (strftime_lp end_))
    as [resp | e]; cbn [raise final]; [| exact Hw1].
  pose proof (quiet_handle_response rt helper ts tn resp w1) as Hq.
  destruct (handle_response rt helper ts tn resp w1) as [[] w2 | e w2 | n w2];
    cbn [final raise] in *; now rewrite Hq.
Qed.

(** The requests of the window loop are an initial part of its windows, in
    their order. *)
Lemma window_loop_requests : forall rt helper time_start time_now day_incr idxs w,
  exists j,
    requests (trace (final (for_each (window_body rt helper time_start time_now day_incr)
                                     idxs tt w)))
    = (requests (trace w)
       ++ map wire (firstn j (map (query_window time_start time_now day_incr) idxs)))%list.
Proof.
  intros rt helper ts tn c idxs. induction idxs as [| i idxs IH]; intros w.
  - exists 0%nat. cbn. now rewrite app_nil_r.
  - cbn [for_each]. unfold bind.
    pose proof (window_body_requests rt helper ts tn c i w) as Hb.
    destruct (window_body rt helper ts tn c tt i w) as [[] w1 | e w1 | n w1];
      cbn [final] in *.
    + destruct (IH w1) as [j Hj]. exists (S j).
      rewrite Hj, Hb, <- app_assoc. reflexivity.
    + exists 1%nat. rewrite Hb. reflexivity.
    + exists 1%nat. rewrite Hb. reflexivity.
Qed.

(** C10: when the start is not after [now], the requests of a run of the
    window loop are an initial part of its windows, in order; every window
    has [from <= to <= now], and a later window starts after an earlier one
    ends; both hold as well for the whole seconds that go on the wire. *)
Theorem windows_ordered :
  forall time_start time_now,
    dt_us time_start <= dt_us time_now ->
    (forall rt helper w0, exists j,
        requests (trace (final (for_each
                                  (window_body rt helper time_start time_now
                                               (day_incr_of (dt_sub time_now time_start)))
                                  (window_indices time_start time_now) tt w0)))
        = (requests (trace w0)
           ++ map wire (firstn j (windows time_start time_now)))%list)
    /\ (forall w, In w (windows time_start time_now) ->
               dt_us (fst w) <= dt_us (snd w) <= dt_us time_now
               /\ wire_second (fst w) <= wire_second (snd w) <= wire_second time_now)
    /\ (forall j k a b,
           (j < k)%nat ->
           nth_error (windows time_start time_now) j = Some a ->
           nth_error (windows time_start time_now) k = Some b ->
           dt_us (fst a) < dt_us (fst b)
           /\ dt_us (snd a) < dt_us (fst b)
           /\ wire_second (snd a) < wire_second (fst b)).
Proof.
  intros ts tn Hle.
  set (c := day_incr_of (dt_sub tn ts)).
  assert (Hc : 0 < c)
    by (subst c; destruct (day_incr_of_cases (dt_sub tn ts)) as [[_ ->] | [_ ->]]; lia).
  assert (Hmono : forall x y, x <= y -> x / us_per_second <= y / us_per_second).
  { intros x y Hxy. apply Z.div_le_mono; [rewrite us_per_second_value; lia | exact Hxy]. }
  split; [| split].
  - intros rt helper w0. apply window_loop_requests.
  - intros w Hin. apply In_nth_error in Hin. destruct Hin as [k Hk].
    apply windows_nth in Hk. fold c in Hk. destruct Hk as [-> Hk].
    destruct (query_window_bounds ts tn c (Z.of_nat k * c) Hc) as (_ & _ & Hb);
      [nia |].
    split; [exact Hb |]. unfold wire_second. split; apply Hmono; lia.
  - intros j k a b Hjk Ha Hb.
    apply windows_nth in Ha. apply windows_nth in Hb. fold c in Ha, Hb.
    destruct Ha as [-> Hj]. destruct Hb as [-> Hk].
    destruct (query_window_bounds ts tn c (Z.of_nat j * c) Hc) as (Hsa & Hea & _);
      [nia |].
    destruct (query_window_bounds ts tn c (Z.of_nat k * c) Hc) as (Hsb & _ & _);
      [nia |].
    assert (Hstep : dt_us (fst (query_window ts tn c (Z.of_nat j * c)))
                    + c * us_per_day
                    <= dt_us (fst (query_window ts tn c (Z.of_nat k * c)))).
    { rewrite Hsa, Hsb. rewrite us_per_day_value. nia. }
    assert (Hend : dt_us (snd (query_window ts tn c (Z.of_nat j * c))) + us_per_second
                   <= dt_us (fst (query_window ts tn c (Z.of_nat k * c)))) by lia.
    rewrite us_per_day_value, us_per_second_value in *.
    split; [nia |]. split; [lia |].
    unfold wire_second. rewrite us_per_second_value.
    pose proof (Z.div_le_mono
                  (dt_us (snd (query_window ts tn c (Z.of_nat j * c))) + 1 * 1000000)
                  (dt_us (fst (query_window ts tn c (Z.of_nat k * c))))
                  1000000 ltac:(lia) ltac:(lia)) as Hd.
    rewrite Z.div_add in Hd by lia. lia.
Qed.

(** C10 at the span from 2023-12-31 to 2024-01-10 12:00:00. *)
Lemma windows_ordered_witness :
  dt_us (mk_datetime 2023 12 31 0 0 0 0) <= dt_us (mk_datetime 2024 1 10 12 0 0 0)
  /\ forall w,
      In w (windows (mk_datetime 2023 12 31 0 0 0 0) (mk_datetime 2024 1 10 12 0 0 0)) ->
      dt_us (fst w) <= dt_us (snd w) <= dt_us (mk_datetime 2024 1 10 12 0 0 0)
      /\ wire_second (fst w) <= wire_second (snd w)
         <= wire_second (mk_datetime 2024 1 10 12 0 0 0).
Proof.
  assert (H : dt_us (mk_datetime 2023 12 31 0 0 0 0)
              <= dt_us (mk_datetime 2024 1 10 12 0 0 0)) by (vm_compute; discriminate).
  split; [exact H |].
  exact (proj1 (proj2 (windows_ordered (mk_datetime 2023 12 31 0 0 0 0)
                                       (mk_datetime 2024 1 10 12 0 0 0) H))).
Defined.

(** ** The collection driver: a rejected query *)

(** [SystemExit], like an exception, ends the window loop at once. *)
Lemma for_each_stops : forall (A S : Type) (body : S -> A -> M S) x rest st w,
  (forall n w', body st x w = Exit n w' ->
                for_each body (x :: rest) st w = Exit n w')
  /\ (forall e w', body st x w = Raise e w' ->
                   for_each body (x :: rest) st w = Raise e w').
Proof.
  intros A S body x rest st w. cbn [for_each]. unfold bind.
  split; intros ? w' ->; reflexivity.
Qed.

(** C7, as the code has it: when the status of the decoded reply does not
    contain [OK], the window ends in [SystemExit] with code 1 right after
    its request: nothing is emitted, nothing is saved, and no later window
    is asked for. *)
Theorem rejected_query_exits :
  forall rt helper time_start time_now day_incr i rest resp_ev resp_ev_json status w,
    let q := wire (query_window time_start time_now day_incr i) in
    requests_post rt (rest_url helper) (fst q) (snd q) = Ok resp_ev ->
    json resp_ev = Ok resp_ev_json ->
    py_getitem resp_ev_json (PyStr "status") = Ok status ->
    py_contains "OK" status = Ok false ->
    for_each (window_body rt helper time_start time_now day_incr) (i :: rest) tt w
    = Exit 1 (World (tick w) (store w)
                    (trace w ++ [Post (rest_url helper) (fst q) (snd q)])).
Proof.
  intros rt helper ts tn c i rest resp j status w q Hpost Hjson Hstatus Hok.
  apply for_each_stops.
  unfold window_body. subst q. unfold wire in *.
  destruct (query_window ts tn c i) as [start end_]. cbn [fst snd] in *.
  rewrite !get_time_lp_datetime.
  unfold bind, try_except, post, emit, handle_response, lift, bind, ret.
  cbn [tick store trace]. rewrite Hpost. cbn [raise ret].
  rewrite Hjson. cbn [ret]. rewrite Hstatus. cbn [ret]. rewrite Hok.
  reflexivity.
Qed.

(** C7 at the first default window, for a reply of status [FAIL] that
    carries three events. *)
Lemma rejected_query_exits_witness :
  for_each (window_body (host (reply "FAIL" (activities 3))) (plain_helper PyNone)
                        (mk_datetime 2024 1 9 0 0 0 0) jan10 1)
           [0; 1] tt (World 1 valid_record [])
  = Exit 1 (World 1 valid_record
                  [Post "https://lastpass.com/enterpriseapi.php"
                        "2024-01-09 00:00:00" "2024-01-09 23:59:59"]).
Proof.
  exact (rejected_query_exits
           (host (reply "FAIL" (activities 3))) (plain_helper PyNone)
           (mk_datetime 2024 1 9 0 0 0 0) jan10 1 0 [1]
           (reply "FAIL" (activities 3))
           (PyDict [("status", PyStr "FAIL"); ("data", PyDict (activities 3))])
           (PyStr "FAIL") (World 1 valid_record [])
           eq_refl eq_refl eq_refl eq_refl).
Defined.

(** C7, the claim as written fails: a status that is not [OK] but contains
    it passes the test; the event of the reply is emitted and a checkpoint is
    written. *)
Lemma status_containing_OK_is_accepted :
  "NOT OK" <> "OK"
  /\ exists w',
      window_body (host (reply "NOT OK" (activities 1))) (plain_helper PyNone)
                  (mk_datetime 2024 1 9 0 0 0 0) jan10 1 tt 0
                  (World 1 valid_record [])
      = Ret tt w'
      /\ List.length (filter is_emit (trace w')) = 1%nat
      /\ map snd (checkpoints 0 PyNone (trace w'))
         = [[(STR_TCURR, PyStr "1704801600.0");
             (STR_TSTART, PyStr "1704758400.0");
             (STR_TEND, PyStr "1704844800.0")]].
Proof.
  split; [discriminate |].
  eexists. split; [vm_compute; reflexivity |]. split; reflexivity.
Qed.

(** ** The collection driver: checkpoints within a window *)

Lemma marks_from_step : forall c n,
  marks_from c (S n)
  = ((if (c + 1) mod 1000 =? 0 then [c + 1] else []) ++ marks_from (c + 1) n)%list.
Proof.
  intros c n. unfold marks_from.
  change (seq 1 (S n)) with (1%nat :: seq 2 n).
  rewrite <- (seq_shift n 1). cbn [map filter]. rewrite map_map.
  replace (c + Z.of_nat 1) with (c + 1) by lia.
  rewrite (map_ext (fun k => c + Z.of_nat (S k)) (fun k => c + 1 + Z.of_nat k))
    by (intros; lia).
  destruct ((c + 1) mod 1000 =? 0); reflexivity.
Qed.

Lemma dict_get_set_other : forall m k k' v,
  k <> k' -> dict_get (dict_set m k v) k' = dict_get m k'.
Proof.
  intros m k k' v Hne. induction m as [| [k0 v0] m IH]; cbn.
  - destruct (String.eqb_spec k k'); [contradiction | reflexivity].
  - destruct (String.eqb_spec k0 k) as [-> | Hk0]; cbn.
    + destruct (String.eqb_spec k k'); [contradiction | reflexivity].
    + destruct (String.eqb_spec k0 k'); [reflexivity | exact IH].
Qed.

Lemma dict_get_in : forall (m : dict) k v,
  dict_get m k = Some v -> In (k, v) m.
Proof.
  intros m k v. induction m as [| [k0 v0] m IH]; cbn; [discriminate |].
  destruct (String.eqb_spec k0 k) as [-> | Hne].
  - intros [= ->]. now left.
  - intros H. right. now apply IH.
Qed.

Lemma dict_get_key : forall (m : dict) kv,
  In kv m -> exists v, dict_get m (fst kv) = Some v.
Proof.
  intros m kv. induction m as [| [k0 v0] m IH]; cbn; [contradiction |].
  intros [<- | Hin]; cbn.
  - rewrite String.eqb_refl. eauto.
  - destruct (String.eqb_spec k0 (fst kv)); eauto.
Qed.

(** A datetime is always accepted by [prepare_time_value]. *)
Lemma prepare_time_value_datetime : forall rt d field_name,
  prepare_time_value rt (PyDatetime d) field_name
  = Ok (py_str (PyFloat (timestamp (tz rt) d))).
Proof. reflexivity. Qed.

(** So is a float that is a number. *)
Lemma prepare_time_value_float : forall rt m e field_name,
  prepare_time_value rt (PyFloat (FDec m e)) field_name
  = Ok (py_str (PyFloat (FDec m e))).
Proof. reflexivity. Qed.

Lemma strftime_epoch_truthy : forall tz0 d,
  truthy (PyStr (strftime_epoch tz0 d)) = true.
Proof.
  intros tz0 d. unfold strftime_epoch. cbn [truthy].
  destruct (str_of_Z (dt_us d / us_per_second - tz0)); reflexivity.
Qed.

(** The checkpoint write of the driver, when the store takes it. *)
Lemma save_checkpoint_event : forall rt helper time_start time_now event_time c w,
  (forall p, save_check_point_fault helper p = None) ->
  prepare_time_value rt event_time STR_TCURR = Ok c ->
  exists p,
    state_payload_of rt event_time (PyDatetime time_start) (PyDatetime time_now) = Ok p
    /\ save_checkpoint rt helper event_time (PyDatetime time_start)
                       (PyDatetime time_now) w
       = Ret tt (World (tick w) (PyDict p) (trace w ++ [Save p])).
Proof.
  intros rt helper ts tn et c w Hsf Hc.
  eexists. split.
  - unfold state_payload_of. rewrite Hc, !prepare_time_value_datetime. reflexivity.
  - apply save_checkpoint_ok; auto using prepare_time_value_datetime.
Qed.

(** Every write of a trace is one of its checkpoints. *)
Lemma checkpoints_length : forall t count last,
  List.length (checkpoints count last t) = List.length (filter is_save t).
Proof.
  induction t as [| [url from to | data time | p] t IH]; intros count last; cbn;
    rewrite ?IH; reflexivity.
Qed.

(** One event of a well-formed reply: it is emitted, its time can be stored,
    and the checkpoint is written when the count reaches a multiple of 1000. *)
Lemma record_step_ok : forall rt helper ts tn m k item c et0 w,
  (forall p, save_check_point_fault helper p = None) ->
  (forall n, dt_us (clock rt n) <> tz rt * us_per_second) ->
  dict_get m k = Some item ->
  record_ok rt item = true ->
  exists d et w' sv,
    record_step rt helper ts tn (PyDict m) (c, et0) (PyStr k) w = Ret (c + 1, et) w'
    /\ trace w' = (trace w ++ Emit d et :: sv)%list
    /\ truthy et = true
    /\ (exists s, prepare_time_value rt et STR_TCURR = Ok s)
    /\ (((c + 1) mod 1000 =? 0) = true ->
        exists p, sv = [Save p]
                  /\ state_payload_of rt et (PyDatetime ts) (PyDatetime tn) = Ok p)
    /\ (((c + 1) mod 1000 =? 0) = false -> sv = []).
Proof.
  intros rt helper ts tn m k item c et0 w Hsf Hclock Hget Hok.
  destruct item as [| | | | | | | | r]; try discriminate.
  cbn [record_ok] in Hok.
  destruct (dict_get r "Time") as [t |] eqn:Ht; [| discriminate].
  unfold record_step. cbn [fst].
  unfold bind at 1. cbn [py_getitem lift]. rewrite Hget. cbn [ret].
  unfold bind at 1. cbn [py_setitem lift ret].
  unfold bind at 1. cbn [py_getitem lift].
  rewrite dict_get_set_other by discriminate. rewrite Ht. cbn [ret].
  cbn [lift ret].
  destruct (convert_time rt t) as [d |].
  - destruct (prepare_time_value rt (PyStr (strftime_epoch (tz rt) d)) STR_TCURR)
      as [s |] eqn:Hp; [| discriminate].
    unfold bind, now, write_event, emit, ret. cbn [tick store trace].
    destruct ((c + 1) mod 1000 =? 0) eqn:Hmod.
    + match goal with
      | |- context [save_checkpoint rt helper ?et _ _ ?W] =>
          destruct (save_checkpoint_event rt helper ts tn et s W Hsf Hp)
            as (p & Hpay & Hsave)
      end.
      rewrite Hsave. cbn [tick store trace].
      do 4 eexists. split; [reflexivity |]. cbn [trace].
      split; [rewrite <- app_assoc; reflexivity |].
      split; [apply strftime_epoch_truthy |].
      split; [eauto |]. split; [eauto | discriminate].
    + do 4 eexists. split; [reflexivity |]. cbn [trace].
      split; [reflexivity |].
      split; [apply strftime_epoch_truthy |].
      split; [eauto |]. split; [discriminate | reflexivity].
  - unfold bind, now, write_event, emit, ret. cbn [tick store trace].
    assert (Hp : prepare_time_value rt (PyFloat (timestamp (tz rt) (clock rt (tick w))))
                                    STR_TCURR
                 = Ok (py_str (PyFloat (timestamp (tz rt) (clock rt (tick w))))))
      by apply prepare_time_value_float.
    assert (Htruthy : truthy (PyFloat (timestamp (tz rt) (clock rt (tick w)))) = true).
    { unfold timestamp. cbn [truthy float_truthy].
      destruct (Z.eqb_spec (dt_us (clock rt (tick w)) - tz rt * us_per_second) 0) as [E |];
        [| reflexivity].
      exfalso. apply (Hclock (tick w)). lia. }
    destruct ((c + 1) mod 1000 =? 0) eqn:Hmod.
    + match goal with
      | |- context [save_checkpoint rt helper ?et _ _ ?W] =>
          destruct (save_checkpoint_event rt helper ts tn et _ W Hsf Hp)
            as (p & Hpay & Hsave)
      end.
      rewrite Hsave. cbn [tick store trace].
      do 4 eexists. split; [reflexivity |]. cbn [trace].
      split; [rewrite <- app_assoc; reflexivity |].
      split; [exact Htruthy |].
      split; [eauto |]. split; [eauto | discriminate].
    + do 4 eexists. split; [reflexivity |]. cbn [trace].
      split; [reflexivity |].
      split; [exact Htruthy |].
      split; [eauto |]. split; [discriminate | reflexivity].
Qed.

(** The event loop of a well-formed reply, from the count [c] on. *)
Lemma records_loop : forall rt helper ts tn m,
  (forall p, save_check_point_fault helper p = None) ->
  (forall n, dt_us (clock rt n) <> tz rt * us_per_second) ->
  forall ids c et w,
    Forall (fun id => exists k item,
                id = PyStr k /\ dict_get m k = Some item
                /\ record_ok rt item = true) ids ->
    exists et' w' t cps,
      for_each (record_step rt helper ts tn (PyDict m)) ids (c, et) w
      = Ret (c + Z.of_nat (List.length ids), et') w'
      /\ trace w' = (trace w ++ t)%list
      /\ List.length (filter is_emit t) = List.length ids
      /\ match ids with
         | [] => et' = et /\ t = []
         | _ :: _ => truthy et' = true
                     /\ exists s, prepare_time_value rt et' STR_TCURR = Ok s
         end
      /\ map (fun x => fst (fst x)) cps = marks_from c (List.length ids)
      /\ Forall (payload_ok rt ts tn) cps
      /\ forall last rest,
          checkpoints c last (t ++ rest)
          = (cps ++ checkpoints (c + Z.of_nat (List.length ids))
                                (match ids with [] => last | _ :: _ => et' end)
                                rest)%list.
Proof.
  intros rt helper ts tn m Hsf Hclock ids.
  induction ids as [| id ids IH]; intros c et w Hall.
  - exists et, w, [], []. cbn [for_each List.length ret Z.of_nat].
    rewrite Z.add_0_r, app_nil_r.
    repeat split; auto.
  - inversion Hall as [| ? ? (k & item & -> & Hget & Hok) Hall']; subst.
    destruct (record_step_ok rt helper ts tn m k item c et w Hsf Hclock Hget Hok)
      as (d & et1 & w1 & sv & Hstep & Htr1 & Htruthy1 & Hprep1 & Hsave & Hnosave).
    destruct (IH (c + 1) et1 w1 Hall')
      as (et' & w' & t & cps & Hrun & Htr & Hlen & Hfinal & Hmarks & Hpay & Hcp).
    exists et', w', (Emit d et1 :: sv ++ t)%list.
    exists ((if (c + 1) mod 1000 =? 0
             then match sv with
                  | Save p :: _ => [(c + 1, et1, p)]
                  | _ => []
                  end
             else []) ++ cps)%list.
    assert (Hn : c + Z.of_nat (List.length (PyStr k :: ids))
                 = c + 1 + Z.of_nat (List.length ids))
      by (cbn [List.length]; lia).
    rewrite Hn.
    split.
    { cbn [for_each]. unfold bind at 1. rewrite Hstep. exact Hrun. }
    split.
    { rewrite Htr, Htr1, <- app_assoc. reflexivity. }
    destruct ((c + 1) mod 1000 =? 0) eqn:Hmod.
    + destruct (Hsave eq_refl) as (p & -> & Hp).
      split; [cbn; now rewrite Hlen |].
      split.
      { destruct ids; [| exact Hfinal].
        destruct Hfinal as [-> _]. auto. }
      split; [cbn [List.length]; rewrite marks_from_step, Hmod;
              cbn [app map fst]; now rewrite Hmarks |].
      split; [constructor; [exact Hp | exact Hpay] |].
      intros last rest. cbn. rewrite Hcp.
      destruct ids; [| reflexivity]. destruct Hfinal as [-> _]. reflexivity.
    + rewrite (Hnosave eq_refl).
      split; [cbn; now rewrite Hlen |].
      split.
      { destruct ids; [| exact Hfinal].
        destruct Hfinal as [-> _]. auto. }
      split; [cbn [List.length]; rewrite marks_from_step, Hmod;
              cbn [app]; exact Hmarks |].
      split; [exact Hpay |].
      intros last rest. cbn. rewrite Hcp.
      destruct ids; [| reflexivity]. destruct Hfinal as [-> _]. reflexivity.
Qed.

(** C6: in a window whose reply is accepted and well formed, every record is
    emitted; a checkpoint is written after each 1000th record and once more
    after the last, each storing the time of the record just emitted, the
    start of the collection and [now]; 2500 records give the three writes
    after records 1000, 2000 and 2500, and no record gives no write. *)
Theorem window_checkpoints :
  forall rt helper time_start time_now resp_ev resp_ev_json status data w,
    (forall p, save_check_point_fault helper p = None) ->
    (forall n, dt_us (clock rt n) <> tz rt * us_per_second) ->
    json resp_ev = Ok resp_ev_json ->
    py_getitem resp_ev_json (PyStr "status") = Ok (PyStr status) ->
    contains "OK" status = true ->
    py_getitem resp_ev_json (PyStr "data") = Ok (PyDict data) ->
    Forall (fun kv => record_ok rt (snd kv) = true) data ->
    exists w' t,
      handle_response rt helper time_start time_now resp_ev w = Ret tt w'
      /\ trace w' = (trace w ++ t)%list
      /\ List.length (filter is_emit t) = List.length data
      /\ map (fun c => fst (fst c)) (checkpoints 0 PyNone t)
         = checkpoint_marks (List.length data)
      /\ Forall (payload_ok rt time_start time_now) (checkpoints 0 PyNone t)
      /\ (List.length data = 2500%nat ->
          map (fun c => fst (fst c)) (checkpoints 0 PyNone t) = [1000; 2000; 2500]
          /\ List.length (filter is_save t) = 3%nat)
      /\ (data = [] -> t = []).
Proof.
  intros rt helper ts tn resp j status data w Hsf Hclock Hjson Hstatus Hok Hdata Hrec.
  assert (Hids : Forall (fun id => exists k item,
                             id = PyStr k /\ dict_get data k = Some item
                             /\ record_ok rt item = true)
                        (map (fun kv => PyStr (fst kv)) data)).
  { apply Forall_forall. intros id Hin. apply in_map_iff in Hin.
    destruct Hin as (kv & <- & Hin).
    destruct (dict_get_key data kv Hin) as [v Hv].
    exists (fst kv), v. split; [reflexivity |]. split; [exact Hv |].
    apply dict_get_in in Hv.
    rewrite Forall_forall in Hrec. exact (Hrec _ Hv). }
  destruct (records_loop rt helper ts tn data Hsf Hclock _ 0 PyNone w Hids)
    as (et & w1 & t & cps & Hrun & Htr & Hlen & Hfinal & Hmarks & Hpay & Hcp).
  rewrite length_map in *.
  unfold handle_response, bind.
  rewrite Hjson. cbn [lift ret]. rewrite Hstatus. cbn [lift ret py_contains].
  rewrite Hok. cbn [negb ret]. rewrite Hdata. cbn [lift py_iter ret].
  rewrite Hrun. cbn [snd].
  destruct data as [| kv data'].
  - cbn [map] in Hfinal. destruct Hfinal as [-> ->].
    exists w1, []. cbn [truthy ret].
    split; [reflexivity |]. split; [exact Htr |].
    split; [reflexivity |]. split; [reflexivity |].
    split; [constructor |]. split; [discriminate | reflexivity].
  - cbn [map] in Hfinal. destruct Hfinal as [Htruthy [s Hs]].
    rewrite Htruthy.
    destruct (save_checkpoint_event rt helper ts tn et s w1 Hsf Hs)
      as (p & Hp & Hsave).
    rewrite Hsave.
    exists (World (tick w1) (PyDict p) (trace w1 ++ [Save p])), (t ++ [Save p])%list.
    assert (Hall : checkpoints 0 PyNone (t ++ [Save p])
                   = (cps ++ [(Z.of_nat (List.length (kv :: data')), et, p)])%list).
    { rewrite Hcp. cbn [map checkpoints]. reflexivity. }
    assert (Hcount : map (fun c => fst (fst c)) (checkpoints 0 PyNone (t ++ [Save p]))
                     = checkpoint_marks (List.length (kv :: data'))).
    { rewrite Hall, map_app, Hmarks. reflexivity. }
    split; [reflexivity |]. cbn [trace].
    split; [rewrite Htr, app_assoc; reflexivity |].
    split.
    { rewrite filter_app, length_app, Hlen. cbn [filter is_emit List.length]. lia. }
    split; [exact Hcount |].
    split.
    { rewrite Hall. apply Forall_app. split; [exact Hpay |].
      constructor; [exact Hp | constructor]. }
    split; [| discriminate].
    intros H2500.
    rewrite <- (checkpoints_length _ 0 PyNone), <- (length_map (fun c => fst (fst c))).
    rewrite Hcount, H2500. split; vm_compute; reflexivity.
Qed.

(** C6 at a reply of 2500 records. *)
Lemma window_checkpoints_witness :
  exists w' t,
    handle_response (host (reply "OK" (activities 2500))) (plain_helper PyNone)
                    (mk_datetime 2024 1 9 0 0 0 0) jan10
                    (reply "OK" (activities 2500)) (World 1 valid_record [])
    = Ret tt w'
    /\ trace w' = t
    /\ List.length (filter is_emit t) = 2500%nat
    /\ map (fun c => fst (fst c)) (checkpoints 0 PyNone t) = [1000; 2000; 2500]
    /\ List.length (filter is_save t) = 3%nat.
Proof.
  destruct (window_checkpoints
              (host (reply "OK" (activities 2500))) (plain_helper PyNone)
              (mk_datetime 2024 1 9 0 0 0 0) jan10
              (reply "OK" (activities 2500))
              (PyDict [("status", PyStr "OK"); ("data", PyDict (activities 2500))])
              "OK" (activities 2500) (World 1 valid_record []))
    as (w' & t & Hrun & Htr & Hlen & _ & _ & H2500 & _).
  - intros p. reflexivity.
  - intros n. vm_compute. discriminate.
  - reflexivity.
  - reflexivity.
  - reflexivity.
  - reflexivity.
  - unfold activities. apply Forall_map. apply Forall_forall. intros k _.
    vm_compute. reflexivity.
  - exists w', t. split; [exact Hrun |]. split; [exact Htr |].
    split; [rewrite Hlen; vm_compute; reflexivity |].
    apply H2500. vm_compute. reflexivity.
Defined.

(** * Further properties *)

(** ** The time value normalizer *)

Lemma int_of_str_error : forall s e, int_of_str s = Err e -> e = Builtin ValueError.
Proof.
  intros s e. unfold int_of_str.
  destruct (sign (lstrip s)) as [neg s1].
  destruct (digits 0 s1) as [[v cnt] rest].
  destruct ((0 <? cnt) && all_space rest); congruence.
Qed.

Lemma float_of_str_error : forall s e, float_of_str s = Err e -> e = Builtin ValueError.
Proof.
  intros s e. unfold float_of_str.
  destruct (sign (lstrip s)) as [neg s1].
  repeat match goal with
         | |- context [if ?c then _ else _] => destruct c
         | |- context [let '(_, _) := ?p in _] => destruct p
         | |- context [match ?x with String _ _ => _ | EmptyString => _ end] =>
             destruct x
         end; cbn; congruence.
Qed.

(** [check_float] never raises; [check_digit] raises for an infinite float,
    whose [OverflowError] its handler does not list, and for nothing else. *)
Theorem check_digit_raises_only_for_infinity : forall rt v,
  (exists b, check_float v = Ok b)
  /\ match v with
     | PyFloat (FInf _) =>
         check_digit v = Err (Builtin OverflowError)
         /\ prepare_time_value rt v STR_TCURR = Err (Builtin AttributeError)
         /\ convert_time rt v = None
     | _ => exists b, check_digit v = Ok b
     end.
Proof.
  intros rt v. split.
  - unfold check_float.
    destruct (float_of_str (py_str v)) as [f | e] eqn:E; cbn; eauto.
    apply float_of_str_error in E. subst e. cbn. eauto.
  - destruct v as [| b | z | [| n | m e] | s | d | t | l | m]; cbn; eauto.
    unfold check_digit. cbn.
    destruct (int_of_str s) as [z | e] eqn:E; cbn; eauto.
    apply int_of_str_error in E. subst e. cbn. eauto.
Qed.

(** The parse shared by [convert_time] and [get_time_dt]. *)
Lemma get_time_dt_parse : forall rt v w,
  get_time_dt rt v w
  = if negb (truthy v) then Ret None w
    else match convert_time rt v with
         | None => Ret None w
         | Some d =>
             Ret (if in_range (clock rt (tick w)) d then Some d else None)
                 (World (S (tick w)) (store w) (trace w))
         end.
Proof.
  intros rt v w. unfold get_time_dt, convert_time, in_range.
  destruct (truthy v); [| reflexivity]. cbn [negb].
  unfold bind, try_except.
  destruct (check_digit v) as [[|] | e]; cbn [lift ret raise rbind]; try reflexivity.
  - destruct (py_int v) as [z | e]; cbn [lift ret raise rbind]; try reflexivity.
    destruct (fromtimestamp_int (tz rt) z) as [d | e]; cbn [lift ret raise now];
      try reflexivity.
    destruct ((365 * 4 <? days (dt_sub (clock rt (tick w)) d))
              || (days (dt_sub (clock rt (tick w)) d) <? 0)); reflexivity.
  - destruct (check_float v) as [[|] | e]; cbn [lift ret raise rbind]; try reflexivity.
    + destruct (py_float v) as [f | e]; cbn [lift ret raise rbind]; try reflexivity.
      destruct (fromtimestamp_float (tz rt) f) as [d | e]; cbn [lift ret raise now];
        try reflexivity.
      destruct ((365 * 4 <? days (dt_sub (clock rt (tick w)) d))
                || (days (dt_sub (clock rt (tick w)) d) <? 0)); reflexivity.
    + destruct (strptime_lp (py_str v)) as [d | e]; cbn [lift ret raise now];
        try reflexivity.
      destruct ((365 * 4 <? days (dt_sub (clock rt (tick w)) d))
                || (days (dt_sub (clock rt (tick w)) d) <? 0)); reflexivity.
Qed.

(** [get_time_dt] is [convert_time] followed by the range check: it reads the
    clock once when the value parses and not at all otherwise, and it
    answers the parsed datetime when that lies within the range. *)
Theorem get_time_dt_is_convert_time_in_range : forall rt v w,
  get_time_dt rt v w
  = if negb (truthy v) then Ret None w
    else match convert_time rt v with
         | None => Ret None w
         | Some d =>
             Ret (if in_range (clock rt (tick w)) d then Some d else None)
                 (World (S (tick w)) (store w) (trace w))
         end.
Proof. exact get_time_dt_parse. Qed.

(** The outcome of [get_time_dt], for use below. *)
Lemma get_time_dt_soft_fail_lemma : forall rt v w,
  exists r w',
    get_time_dt rt v w = Ret r w'
    /\ store w' = store w /\ trace w' = trace w
    /\ match r with
       | None => True
       | Some d =>
           tick w' = S (tick w)
           /\ dt_us d <= dt_us (clock rt (tick w))
           /\ dt_us (clock rt (tick w)) - dt_us d < 1461 * us_per_day
       end.
Proof.
  intros rt v w. rewrite get_time_dt_parse.
  destruct (negb (truthy v)); [exists None, w; auto |].
  destruct (convert_time rt v) as [d |]; [| exists None, w; auto].
  destruct (in_range (clock rt (tick w)) d) eqn:Hr; do 2 eexists;
    (split; [reflexivity |]); cbn [store trace tick]; repeat split; auto.
  - unfold in_range in Hr. apply negb_true_iff, orb_false_iff in Hr.
    destruct Hr as [_ H0]. apply Z.ltb_ge in H0.
    pose proof (days_bounds (dt_sub (clock rt (tick w)) d)) as Hb.
    unfold dt_sub in *. cbn [td_us] in *. rewrite us_per_day_value in *. lia.
  - unfold in_range in Hr. apply negb_true_iff, orb_false_iff in Hr.
    destruct Hr as [H4 _]. apply Z.ltb_ge in H4.
    pose proof (days_bounds (dt_sub (clock rt (tick w)) d)) as Hb.
    unfold dt_sub in *. cbn [td_us] in *. rewrite us_per_day_value in *. lia.
Qed.

(** [get_time_dt] fails softly: it never raises and never exits, it leaves
    the store and the trace alone, and a datetime it answers is not after the
    clock reading it was checked against and less than 1461 days before
    it. *)
Theorem get_time_dt_soft_fail : forall rt v w,
  exists r w',
    get_time_dt rt v w = Ret r w'
    /\ store w' = store w /\ trace w' = trace w
    /\ match r with
       | None => True
       | Some d =>
           tick w' = S (tick w)
           /\ dt_us d <= dt_us (clock rt (tick w))
           /\ dt_us (clock rt (tick w)) - dt_us d < 1461 * us_per_day
       end.
Proof. exact get_time_dt_soft_fail_lemma. Qed.

(** ** The URL of the API *)

Lemma prefix_app : forall p s, prefix p (p ++ s) = true.
Proof.
  induction p as [| c p IH]; intros s; cbn.
  - destruct s; reflexivity.
  - destruct (ascii_dec c c) as [_ | Hne]; [apply IH | now elim Hne].
Qed.

Lemma contains_app : forall p s, contains p (p ++ s) = true.
Proof.
  intros p s. pose proof (prefix_app p s) as H.
  destruct (p ++ s); cbn [contains]; rewrite H; reflexivity.
Qed.

Lemma contains_nonempty : forall p s,
  p <> EmptyString -> contains p s = true -> s <> EmptyString.
Proof.
  intros p s Hp H ->. destruct p; [now elim Hp | discriminate].
Qed.

(** Every request goes to a URL that contains [https://]: the configured
    one when it does, the configured one behind that prefix when it does
    not, the vendor's when none is configured. *)
Theorem rest_url_contains_https : forall helper,
  contains "https://" (rest_url helper) = true
  /\ (forall rt from to w,
         exists w1, final (post rt helper from to w) = w1
                    /\ trace w1 = (trace w ++ [Post (rest_url helper) from to])%list)
  /\ match get_arg_lastpass_api_url helper with
     | None => rest_url helper = "https://lastpass.com/enterpriseapi.php"
     | Some u =>
         if String.eqb u EmptyString
         then rest_url helper = "https://lastpass.com/enterpriseapi.php"
         else if contains "https://" u then rest_url helper = u
         else rest_url helper = "https://" ++ u
     end.
Proof.
  intros helper. split; [| split].
  - unfold rest_url. destruct (get_arg_lastpass_api_url helper) as [u |];
      [| reflexivity].
    destruct (String.eqb u EmptyString); [reflexivity |].
    destruct (contains "https://" u) eqn:E; cbn [negb]; [exact E |].
    apply contains_app.
  - intros rt from to w. eexists. split; [reflexivity |].
    rewrite post_outcome. cbv zeta.
    destruct (requests_post rt (rest_url helper) from to); reflexivity.
  - unfold rest_url. destruct (get_arg_lastpass_api_url helper) as [u |];
      [| reflexivity].
    destruct (String.eqb u EmptyString); [reflexivity |].
    destruct (contains "https://" u); reflexivity.
Qed.

(** ** Validating the configuration *)

Lemma digits_tail_all_digits : forall s acc cnt,
  all_digits s = true ->
  exists v, digits_tail acc cnt s = (v, cnt + Z.of_nat (String.length s), EmptyString).
Proof.
  induction s as [| c s IH]; intros acc cnt H; cbn in *.
  - exists acc. now rewrite Z.add_0_r.
  - apply andb_true_iff in H. destruct H as [Hc Hs]. rewrite Hc.
    destruct (IH (acc * 10 + digit_val c) (cnt + 1) Hs) as [v Hv].
    exists v. rewrite Hv. f_equal. f_equal. lia.
Qed.

(** A text of digits is an integer for [int], hence a digit for
    [check_digit]. *)
Lemma isdigit_int_of_str : forall s,
  isdigit s = true -> exists z, int_of_str s = Ok z.
Proof.
  intros s H. unfold isdigit in H. apply andb_true_iff in H. destruct H as [Hne Hd].
  destruct s as [| c s]; [discriminate |].
  cbn in Hd. apply andb_true_iff in Hd. destruct Hd as [Hc Hs].
  assert (Hsp : is_space c = false).
  { unfold is_digit, is_space in *. apply andb_true_iff in Hc. destruct Hc as [H1 H2].
    apply Z.leb_le in H1, H2.
    apply orb_false_iff. split; apply andb_false_iff.
    - right. apply Z.leb_gt. lia.
    - right. apply Z.leb_gt. lia. }
  assert (Hsg : sign (String c s) = (false, String c s)).
  { unfold sign. unfold is_digit, code in Hc.
    destruct c as [[|] [|] [|] [|] [|] [|] [|] [|]]; try reflexivity; discriminate. }
  unfold int_of_str. cbn [lstrip]. rewrite Hsp, Hsg. cbn [digits]. rewrite Hc.
  destruct (digits_tail_all_digits s (0 * 10 + digit_val c) 1 Hs) as [v ->].
  cbn [all_space andb].
  destruct (Z.ltb_spec 0 (1 + Z.of_nat (String.length s))); [| lia].
  cbn. eauto.
Qed.

(** The time check of [validate_input] ends well or in [ValueError], and
    touches neither the store nor the trace. *)
Lemma validate_time_outcome : forall rt time_start (r : pyval) w,
  match (try_except
           (if isdigit (py_str time_start) then
              z <- lift (py_int time_start) ;;
              time_dt <- lift (fromtimestamp_int (tz rt) z) ;;
              n <- now rt ;;
              let diff := dt_sub n time_dt in
              if (365 * 4 <? days diff) || (days diff <? 0)
              then raise (Builtin ValueError)
              else ret tt
            else if is_none time_start then ret tt
            else
              _ <- lift (strptime_lp (py_str time_start)) ;;
              ret tt)
           (fun e => raise (Builtin ValueError)) ;;
         ret r) w with
  | Ret r' w' => r' = r /\ store w' = store w /\ trace w' = trace w
  | Raise e w' => e = Builtin ValueError /\ store w' = store w /\ trace w' = trace w
  | Exit _ _ => False
  end.
Proof.
  intros rt ts r w. unfold bind, try_except.
  destruct (isdigit (py_str ts)).
  - destruct (py_int ts) as [z | e]; cbn [lift ret raise]; auto.
    destruct (fromtimestamp_int (tz rt) z) as [d | e]; cbn [lift ret raise now]; auto.
    destruct ((365 * 4 <? days (dt_sub (clock rt (tick w)) d))
              || (days (dt_sub (clock rt (tick w)) d) <? 0));
      cbn [ret raise store trace]; auto.
  - destruct (is_none ts); cbn [ret]; auto.
    destruct (strptime_lp (py_str ts)) as [d | e]; cbn [lift ret raise]; auto.
Qed.

(** For a URL that is a text, [validate_input] either accepts, and then the
    URL it leaves contains [https://] and is the one [collect_events] will
    post to, or raises [ValueError]; it touches neither the store nor the
    trace.  A missing URL raises [TypeError] instead. *)
Theorem validate_input_outcome : forall rt u time_start w,
  match validate_input rt (PyStr u) time_start w with
  | Ret r w' =>
      store w' = store w /\ trace w' = trace w
      /\ exists u',
          r = PyStr u' /\ contains "https://" u' = true
          /\ (u' = u \/ u' = "https://" ++ u)
          /\ forall setting rf sf, rest_url (Helper (Some u') setting rf sf) = u'
  | Raise e w' => e = Builtin ValueError /\ store w' = store w /\ trace w' = trace w
  | Exit _ _ => False
  end
  /\ validate_input rt PyNone time_start w = Raise (Builtin TypeError) w.
Proof.
  intros rt u ts w. split; [| reflexivity].
  assert (Hrest : forall u', contains "https://" u' = true ->
                             forall setting rf sf,
                               rest_url (Helper (Some u') setting rf sf) = u').
  { intros u' Hc setting rf sf. unfold rest_url. cbn [get_arg_lastpass_api_url].
    destruct (String.eqb_spec u' EmptyString) as [-> | _]; [discriminate |].
    now rewrite Hc. }
  pose proof (validate_time_outcome rt ts (PyStr ("https://" ++ u)) w) as H.
  unfold validate_input. unfold bind in *. cbn [py_contains lift ret] in *.
  destruct (contains "https://" u) eqn:Hs; cbn [ret negb raise].
  - repeat split; auto. exists u. auto.
  - destruct (contains "http" u); cbn [ret negb raise]; auto.
    destruct (contains "." u); cbn [ret negb raise concat_str lift]; auto.
    destruct (try_except _ _ w) as [[] w' | e w' | n w'] in H |- *; auto.
    destruct H as (_ & Hst & Htr). repeat split; auto.
    exists ("https://" ++ u). repeat split; auto using contains_app.
Qed.

(** A URL that contains [https://] ends the validation at once: the start
    time is not looked at and the clock is not read. *)
Theorem validate_input_https_skips_time_start : forall rt u time_start w,
  contains "https://" u = true ->
  validate_input rt (PyStr u) time_start w = Ret (PyStr u) w.
Proof.
  intros rt u ts w H. unfold validate_input, bind. cbn [py_contains lift ret].
  now rewrite H.
Qed.

Lemma validate_input_https_skips_time_start_witness :
  contains "https://" "https://lastpass.com/enterpriseapi.php" = true
  /\ validate_input (host (reply "OK" [])) (PyStr "https://lastpass.com/enterpriseapi.php")
                    (PyStr "not a time") (World 0 PyNone [])
     = Ret (PyStr "https://lastpass.com/enterpriseapi.php") (World 0 PyNone []).
Proof.
  split; [reflexivity |].
  apply (validate_input_https_skips_time_start
           (host (reply "OK" [])) "https://lastpass.com/enterpriseapi.php").
  reflexivity.
Defined.

(** A URL without [https://] is rejected with [ValueError] when it contains
    [http] or has no dot, whatever the start time is. *)
Theorem validate_input_rejects_url : forall rt u time_start w,
  contains "https://" u = false ->
  contains "http" u = true \/ contains "." u = false ->
  validate_input rt (PyStr u) time_start w = Raise (Builtin ValueError) w.
Proof.
  intros rt u ts w Hs H. unfold validate_input, bind. cbn [py_contains lift ret].
  rewrite Hs. cbn [negb].
  destruct (contains "http" u); cbn [ret raise]; [reflexivity |].
  destruct H as [H | H]; [discriminate |]. now rewrite H.
Qed.

Lemma validate_input_rejects_url_witness :
  validate_input (host (reply "OK" [])) (PyStr "http://lastpass.com/enterpriseapi.php")
                 PyNone (World 0 PyNone [])
  = Raise (Builtin ValueError) (World 0 PyNone [])
  /\ validate_input (host (reply "OK" [])) (PyStr "localhost") PyNone (World 0 PyNone [])
     = Raise (Builtin ValueError) (World 0 PyNone []).
Proof.
  split.
  - apply validate_input_rejects_url; [reflexivity | left; reflexivity].
  - apply validate_input_rejects_url; [reflexivity | right; reflexivity].
Defined.

(** For a bare domain and a start time written in digits, [validate_input]
    accepts exactly when [get_time_dt] will answer a datetime at the same
    clock reading: the two range checks agree. *)
Theorem validate_input_digits_agree_with_get_time_dt : forall rt u s w,
  contains "https://" u = false ->
  contains "http" u = false ->
  contains "." u = true ->
  isdigit s = true ->
  (exists w', validate_input rt (PyStr u) (PyStr s) w = Ret (PyStr ("https://" ++ u)) w')
  <-> (exists d w', get_time_dt rt (PyStr s) w = Ret (Some d) w').
Proof.
  intros rt u s w Hs Hh Hd Hdig.
  destruct (isdigit_int_of_str s Hdig) as [z Hz].
  assert (Hne : truthy (PyStr s) = true).
  { unfold isdigit in Hdig. apply andb_true_iff in Hdig. apply Hdig. }
  assert (Hg : get_time_dt rt (PyStr s) w
               = match fromtimestamp_int (tz rt) z with
                 | Ok d => Ret (if in_range (clock rt (tick w)) d then Some d else None)
                               (World (S (tick w)) (store w) (trace w))
                 | Err _ => Ret None w
                 end).
  { rewrite get_time_dt_parse, Hne. cbn [negb]. unfold convert_time, check_digit.
    cbn [py_int]. rewrite Hz. cbn [rbind or_false].
    destruct (fromtimestamp_int (tz rt) z); reflexivity. }
  assert (Hv : validate_input rt (PyStr u) (PyStr s) w
               = match fromtimestamp_int (tz rt) z with
                 | Ok d => if in_range (clock rt (tick w)) d
                           then Ret (PyStr ("https://" ++ u))
                                    (World (S (tick w)) (store w) (trace w))
                           else Raise (Builtin ValueError)
                                      (World (S (tick w)) (store w) (trace w))
                 | Err _ => Raise (Builtin ValueError) w
                 end).
  { unfold validate_input, bind, try_except, in_range.
    cbn [py_contains lift ret py_str py_int]. rewrite Hs, Hh, Hd, Hdig, Hz.
    cbn [negb ret raise concat_str lift].
    destruct (fromtimestamp_int (tz rt) z) as [d | e]; cbn [lift ret raise now];
      [| reflexivity].
    destruct ((365 * 4 <? days (dt_sub (clock rt (tick w)) d))
              || (days (dt_sub (clock rt (tick w)) d) <? 0)); reflexivity. }
  rewrite Hg, Hv.
  destruct (fromtimestamp_int (tz rt) z) as [d | e].
  - destruct (in_range (clock rt (tick w)) d); split.
    + intros _. eauto.
    + intros _. eauto.
    + intros [w' H]. discriminate.
    + intros (d' & w' & H). discriminate.
  - split.
    + intros [w' H]. discriminate.
    + intros (d' & w' & H). discriminate.
Qed.

Lemma validate_input_digits_agree_with_get_time_dt_witness :
  (exists w', validate_input (host (reply "OK" [])) (PyStr "lastpass.com/enterpriseapi.php")
                             (PyStr "1704672000") (World 0 PyNone [])
              = Ret (PyStr ("https://" ++ "lastpass.com/enterpriseapi.php")) w')
  <-> (exists d w', get_time_dt (host (reply "OK" [])) (PyStr "1704672000")
                                (World 0 PyNone [])
                    = Ret (Some d) w').
Proof.
  apply validate_input_digits_agree_with_get_time_dt; reflexivity.
Defined.

(** A start time in the [YYYY-MM-DD HH:MM:SS] form is accepted for a bare
    domain without a look at the clock: validation checks the range of a
    start given in digits only. *)
Theorem validate_input_formatted_start_unchecked : forall rt u s d w,
  contains "https://" u = false ->
  contains "http" u = false ->
  contains "." u = true ->
  isdigit s = false ->
  strptime_lp s = Ok d ->
  validate_input rt (PyStr u) (PyStr s) w = Ret (PyStr ("https://" ++ u)) w.
Proof.
  intros rt u s d w Hs Hh Hd Hdig Hp.
  unfold validate_input, bind, try_except.
  cbn [py_contains lift ret py_str is_none]. rewrite Hs, Hh, Hd, Hdig, Hp.
  reflexivity.
Qed.

Lemma validate_input_formatted_start_unchecked_witness :
  validate_input (host (reply "OK" [])) (PyStr "lastpass.com")
                 (PyStr "1990-01-01 00:00:00") (World 0 PyNone [])
  = Ret (PyStr "https://lastpass.com") (World 0 PyNone [])
  /\ get_time_dt (host (reply "OK" [])) (PyStr "1990-01-01 00:00:00") (World 0 PyNone [])
     = Ret None (World 1 PyNone []).
Proof.
  split; [| reflexivity].
  apply (validate_input_formatted_start_unchecked
           (host (reply "OK" [])) "lastpass.com" "1990-01-01 00:00:00"
           (mk_datetime 1990 1 1 0 0 0 0)); reflexivity.
Defined.

(** ** More on the checkpoint store adapter *)

(** A value with no [get] is not validated: the handler raises. *)
Lemma get_checkpoint_no_get : forall rt helper w,
  get_check_point_fault helper = None ->
  check_digit (store w) = Ok false ->
  check_float (store w) = Ok false ->
  py_get (store w) STR_TCURR = Err (Builtin AttributeError) ->
  get_checkpoint rt helper w = Raise (Builtin AttributeError) w.
Proof.
  intros rt helper w Hf Hd Hfl Hg.
  unfold get_checkpoint, bind, try_except, helper_get_check_point.
  rewrite Hf. cbn [ret]. rewrite Hd. cbn [lift ret]. rewrite Hfl. cbn [lift ret].
  unfold field_invalid, log_fields. rewrite Hg. reflexivity.
Qed.

(** The three ways [get_checkpoint] ends when the store can be read. *)
Lemma get_checkpoint_cases : forall rt helper w,
  get_check_point_fault helper = None ->
  (exists e, get_checkpoint rt helper w = Raise e w
             /\ forall m, store w <> PyDict m)
  \/ (get_checkpoint rt helper w
      = Ret (PyDict [(STR_TCURR, PyNone); (STR_TSTART, store w); (STR_TEND, PyNone)]) w
      /\ (check_digit (store w) = Ok true \/ check_float (store w) = Ok true)
      /\ forall m, store w <> PyDict m)
  \/ (get_checkpoint rt helper w = Ret PyNone w /\ exists m, store w = PyDict m).
Proof.
  intros rt helper w Hf.
  destruct w as [tk st tr]. cbn [store].
  destruct st as [| b | z | f | s | d | t | l | m];
    try (right; right; split; [now apply get_checkpoint_dict | eauto]).
  all: destruct (check_digit _) as [[|] | e] eqn:Hd;
    [ right; left
    | destruct (check_float _) as [[|] | e] eqn:Hfl; [right; left | left | left]
    | left ].
  all: try (split; [| split; [auto | intros m; discriminate]];
            unfold get_checkpoint, bind, try_except, helper_get_check_point;
            rewrite Hf; cbn [ret store]; rewrite Hd; cbn [lift ret];
            rewrite ?Hfl; reflexivity).
  all: try (exists (Builtin AttributeError); split; [| intros m; discriminate];
            apply get_checkpoint_no_get; auto; reflexivity).
  all: exists e; split; [| intros m; discriminate];
    unfold get_checkpoint, bind, try_except, helper_get_check_point;
    rewrite Hf; cbn [ret store]; rewrite Hd; cbn [lift ret raise];
    rewrite ?Hfl; reflexivity.
Qed.

(** What [get_checkpoint] can answer: [None], for a stored mapping or an
    unreadable store, or the upgrade of a stored bare number.  It never
    answers a stored mapping, and it changes nothing. *)
Theorem get_checkpoint_answers : forall rt helper w r w',
  get_checkpoint rt helper w = Ret r w' ->
  w' = w
  /\ ((r = PyNone
       /\ (get_check_point_fault helper <> None \/ exists m, store w = PyDict m))
      \/ (r = PyDict [(STR_TCURR, PyNone); (STR_TSTART, store w); (STR_TEND, PyNone)]
          /\ (check_digit (store w) = Ok true \/ check_float (store w) = Ok true))).
Proof.
  intros rt helper w r w'.
  destruct (get_check_point_fault helper) as [x |] eqn:Hf.
  - unfold get_checkpoint, bind, try_except, helper_get_check_point. rewrite Hf.
    destruct (exn_message x); cbn; intros H; inversion H. subst.
    split; [reflexivity |]. left. split; [reflexivity |]. left. discriminate.
  - destruct (get_checkpoint_cases rt helper w Hf)
      as [(e & -> & _) | [(-> & Hn & _) | (-> & Hm)]]; intros H; inversion H; subst;
      auto.
Qed.

Lemma get_checkpoint_answers_witness :
  get_checkpoint (host (reply "OK" [])) (plain_helper PyNone)
                 (World 0 (PyStr "1704758400.5") [])
  = Ret (PyDict [(STR_TCURR, PyNone); (STR_TSTART, PyStr "1704758400.5");
                 (STR_TEND, PyNone)])
        (World 0 (PyStr "1704758400.5") [])
  /\ ((PyDict [(STR_TCURR, PyNone); (STR_TSTART, PyStr "1704758400.5"); (STR_TEND, PyNone)]
       = PyNone
       /\ (get_check_point_fault (plain_helper PyNone) <> None
           \/ exists m, store (World 0 (PyStr "1704758400.5") []) = PyDict m))
      \/ (PyDict [(STR_TCURR, PyNone); (STR_TSTART, PyStr "1704758400.5");
                  (STR_TEND, PyNone)]
          = PyDict [(STR_TCURR, PyNone);
                    (STR_TSTART, store (World 0 (PyStr "1704758400.5") []));
                    (STR_TEND, PyNone)]
          /\ (check_digit (store (World 0 (PyStr "1704758400.5") [])) = Ok true
              \/ check_float (store (World 0 (PyStr "1704758400.5") [])) = Ok true))).
Proof.
  split; [reflexivity |].
  apply (get_checkpoint_answers (host (reply "OK" [])) (plain_helper PyNone)
                                (World 0 (PyStr "1704758400.5") []) _
                                (World 0 (PyStr "1704758400.5") [])).
  reflexivity.
Defined.

(** When the store cannot be read, [get_checkpoint] answers [None] if the
    exception of the store has a [message]; otherwise the warning itself
    raises [AttributeError]. *)
Theorem get_checkpoint_read_fault : forall rt helper x w,
  get_check_point_fault helper = Some x ->
  get_checkpoint rt helper w
  = match exn_message x with
    | Ok _ => Ret PyNone w
    | Err a => Raise a w
    end.
Proof.
  intros rt helper x w Hf.
  unfold get_checkpoint, bind, try_except, helper_get_check_point. rewrite Hf.
  destruct (exn_message x); reflexivity.
Qed.

Lemma get_checkpoint_read_fault_witness :
  get_checkpoint (host (reply "OK" []))
                 (Helper None PyNone (Some (Foreign "HTTPError" (Some "503"))) (fun _ => None))
                 (World 0 valid_record [])
  = Ret PyNone (World 0 valid_record [])
  /\ get_checkpoint (host (reply "OK" []))
                    (Helper None PyNone (Some (Builtin IOError)) (fun _ => None))
                    (World 0 valid_record [])
     = Raise (Builtin AttributeError) (World 0 valid_record []).
Proof.
  split.
  - exact (get_checkpoint_read_fault
             (host (reply "OK" []))
             (Helper None PyNone (Some (Foreign "HTTPError" (Some "503"))) (fun _ => None))
             (Foreign "HTTPError" (Some "503")) (World 0 valid_record []) eq_refl).
  - exact (get_checkpoint_read_fault
             (host (reply "OK" []))
             (Helper None PyNone (Some (Builtin IOError)) (fun _ => None))
             (Builtin IOError) (World 0 valid_record []) eq_refl).
Defined.

(** [save_checkpoint] writes the whole record or nothing: it never exits, a
    raise leaves the world as it was, and a return has stored one record of
    three texts and added that one write to the trace.  The record it
    stored is not read back: [get_checkpoint] answers [None] for it. *)
Theorem save_checkpoint_all_or_nothing :
  forall rt helper time_curr time_start time_end w,
    match save_checkpoint rt helper time_curr time_start time_end w with
    | Ret _ w' =>
        exists c s e,
          prepare_time_value rt time_curr STR_TCURR = Ok c
          /\ prepare_time_value rt time_start STR_TSTART = Ok s
          /\ prepare_time_value rt time_end STR_TEND = Ok e
          /\ w' = World (tick w)
                        (PyDict [(STR_TCURR, PyStr c); (STR_TSTART, PyStr s);
                                 (STR_TEND, PyStr e)])
                        (trace w ++ [Save [(STR_TCURR, PyStr c); (STR_TSTART, PyStr s);
                                           (STR_TEND, PyStr e)]])
          /\ (get_check_point_fault helper = None ->
              get_checkpoint rt helper w' = Ret PyNone w')
    | Raise _ w' => w' = w
    | Exit _ _ => False
    end.
Proof.
  intros rt helper tc ts te w.
  unfold save_checkpoint, try_except, bind, helper_save_check_point.
  destruct (prepare_time_value_outcome rt tc STR_TCURR) as [[c Hc] | Hc];
    rewrite Hc; [| reflexivity].
  destruct (prepare_time_value_outcome rt ts STR_TSTART) as [[s Hs] | Hs];
    rewrite Hs; [| reflexivity].
  destruct (prepare_time_value_outcome rt te STR_TEND) as [[e He] | He];
    rewrite He; [| reflexivity].
  cbn [lift ret].
  destruct (save_check_point_fault helper _) as [x |].
  - destruct (exn_message x); reflexivity.
  - exists c, s, e. repeat split; auto.
    intros Hf. now apply get_checkpoint_dict.
Qed.

(** ** The whole input *)

(** With a stored mapping, which is what every successful
    [save_checkpoint] leaves, the stored record plays no part: the
    collection starts at the operator's start time when [get_time_dt]
    accepts it and one day before [now], cut to the second, otherwise. *)
Theorem collect_events_ignores_stored_record : forall rt helper tk m tr,
  get_check_point_fault helper = None ->
  collect_events rt helper (World tk (PyDict m) tr)
  = (time_start <- get_time_dt rt (get_global_setting_time_start helper) ;;
     time_now <- now rt ;;
     let start := match time_start with
                  | Some d => d
                  | None => replace_microsecond0 (dt_sub_td time_now (timedelta_days 1))
                  end in
     for_each (window_body rt helper start time_now
                           (day_incr_of (dt_sub time_now start)))
              (window_indices start time_now) tt)
      (World tk (PyDict m) tr).
Proof.
  intros rt helper tk m tr Hf. unfold collect_events.
  unfold bind at 1. rewrite get_checkpoint_dict by exact Hf.
  unfold bind at 1 4.
  destruct (get_time_dt rt (get_global_setting_time_start helper)
                        (World tk (PyDict m) tr)) as [[d |] w1 | e w1 | n w1];
    reflexivity.
Qed.

Lemma collect_events_ignores_stored_record_witness :
  collect_events (host (reply "OK" [])) (plain_helper (PyStr "2024-01-08 00:00:00"))
                 (World 0 valid_record [])
  = Ret tt (World 2 valid_record
                  [Post "https://lastpass.com/enterpriseapi.php"
                        "2024-01-08 00:00:00" "2024-01-08 23:59:59";
                   Post "https://lastpass.com/enterpriseapi.php"
                        "2024-01-09 00:00:00" "2024-01-09 23:59:59";
                   Post "https://lastpass.com/enterpriseapi.php"
                        "2024-01-10 00:00:00" "2024-01-10 00:00:00"]).
Proof.
  unfold valid_record.
  rewrite (collect_events_ignores_stored_record
             (host (reply "OK" [])) (plain_helper (PyStr "2024-01-08 00:00:00")) 0
             _ [] eq_refl).
  reflexivity.
Defined.

(** Unless the stored value is a mapping, [collect_events] raises before it
    sends a request, emits an event or writes a checkpoint: a stored bare
    number ends in [TypeError] and anything else, the [None] of a first run
    included, in the exception of [get_checkpoint]. *)
Theorem collect_events_needs_stored_mapping : forall rt helper w,
  get_check_point_fault helper = None ->
  (forall m, store w <> PyDict m) ->
  exists e w',
    collect_events rt helper w = Raise e w'
    /\ store w' = store w /\ trace w' = trace w.
Proof.
  intros rt helper w Hf Hnm.
  destruct (get_checkpoint_cases rt helper w Hf)
    as [(e & Hg & _) | [(Hg & _ & _) | (_ & m & Hm)]].
  - exists e, w. unfold collect_events, bind. rewrite Hg. auto.
  - destruct (get_time_dt_soft_fail_lemma rt (get_global_setting_time_start helper) w)
      as (r & w1 & Hr & Hst & Htr & _).
    unfold collect_events. unfold bind at 1. rewrite Hg.
    unfold bind at 1. rewrite Hr. unfold bind at 1. cbn [now].
    unfold bind at 1. unfold effective_start.
    cbn [truthy negb andb]. rewrite !andb_true_r, !andb_false_r.
    destruct r as [d |]; cbn [is_some negb].
    + exists (Builtin TypeError). eexists. split; [reflexivity |].
      cbn [store trace]. auto.
    + rewrite get_time_dt_dict.
      exists (Builtin TypeError). eexists. split; [reflexivity |].
      cbn [store trace]. auto.
  - now elim (Hnm m).
Qed.

Lemma collect_events_needs_stored_mapping_witness :
  exists e w',
    collect_events (host (reply "OK" [])) (plain_helper PyNone) (World 0 PyNone [])
    = Raise e w'
    /\ store w' = PyNone /\ trace w' = [].
Proof.
  apply (collect_events_needs_stored_mapping
           (host (reply "OK" [])) (plain_helper PyNone) (World 0 PyNone [])).
  - reflexivity.
  - intros m. discriminate.
Defined.

(** ** More on the windows *)

Lemma windows_length : forall time_start time_now,
  let diff := dt_sub time_now time_start in
  List.length (windows time_start time_now)
  = Z.to_nat ((days diff + day_incr_of diff) / day_incr_of diff).
Proof.
  intros ts tn diff. unfold windows, window_indices, py_range. fold diff.
  rewrite !length_map, length_seq. f_equal. f_equal. lia.
Qed.

(** The number of requests: none when the start is after [now], otherwise
    one per chunk begun, [days / chunk + 1]. *)
Theorem windows_count : forall time_start time_now,
  let diff := dt_sub time_now time_start in
  List.length (windows time_start time_now)
  = if dt_us time_now <? dt_us time_start then 0%nat
    else Z.to_nat (days diff / day_incr_of diff + 1).
Proof.
  intros ts tn diff. rewrite windows_length. fold diff.
  pose proof (days_bounds diff) as Hd.
  assert (Htd : td_us diff = dt_us tn - dt_us ts) by reflexivity.
  rewrite us_per_day_value in Hd.
  destruct (day_incr_of_cases diff) as [[H7 ->] | [H7 ->]];
    destruct (Z.ltb_spec (dt_us tn) (dt_us ts)) as [Hlt | Hge].
  - assert (days diff <= -1) by lia.
    assert ((days diff + 1) / 1 <= 0) by (rewrite Z.div_1_r; lia). lia.
  - rewrite !Z.div_1_r. reflexivity.
  - lia.
  - replace (days diff + 3) with (days diff + 1 * 3) by lia.
    rewrite Z.div_add by lia. reflexivity.
Qed.

(** The windows tile the span: the first starts at the start, each next one
    starts one second after the one before it ends, and the last ends at
    [now] or less than a second before it. *)
Theorem windows_tile_the_span : forall time_start time_now,
  dt_us time_start <= dt_us time_now ->
  (exists w, nth_error (windows time_start time_now) 0 = Some w
             /\ fst w = dt_add time_start (timedelta_days 0)
             /\ dt_us (fst w) = dt_us time_start)
  /\ (forall k a b,
         nth_error (windows time_start time_now) k = Some a ->
         nth_error (windows time_start time_now) (S k) = Some b ->
         dt_us (fst b) = dt_us (snd a) + us_per_second)
  /\ (forall k a,
         nth_error (windows time_start time_now) k = Some a ->
         nth_error (windows time_start time_now) (S k) = None ->
         dt_us time_now - us_per_second < dt_us (snd a) <= dt_us time_now).
Proof.
  intros ts tn Hle.
  set (diff := dt_sub tn ts). set (c := day_incr_of diff).
  pose proof (days_bounds diff) as Hd.
  assert (Htd : td_us diff = dt_us tn - dt_us ts) by reflexivity.
  assert (Hc : 0 < c)
    by (subst c; destruct (day_incr_of_cases diff) as [[_ ->] | [_ ->]]; lia).
  assert (HD : 0 <= days diff).
  { rewrite us_per_day_value in Hd. lia. }
  split; [| split].
  - destruct (nth_error (windows ts tn) 0) as [w |] eqn:E.
    + exists w. split; [reflexivity |].
      apply windows_nth in E. destruct E as [-> _].
      unfold query_window, dt_add, timedelta_days. cbn [fst dt_us td_us Z.of_nat].
      split; [reflexivity | lia].
    + apply nth_error_None in E. rewrite windows_length in E. fold diff c in E.
      assert (1 <= (days diff + c) / c).
      { apply Z.div_le_lower_bound; lia. }
      lia.
  - intros k a b Ha Hb.
    apply windows_nth in Ha. apply windows_nth in Hb. fold diff c in Ha, Hb.
    destruct Ha as [-> Hka]. destruct Hb as [-> Hkb].
    unfold query_window, dt_lt, dt_add, dt_sub_td, timedelta_days, timedelta_seconds.
    cbn [fst snd dt_us td_us].
    rewrite us_per_day_value, us_per_second_value in *.
    destruct (Z.ltb_spec (dt_us tn)
                (dt_us ts + Z.of_nat k * c * 86400000000 + c * 86400000000
                 - 1 * 1000000)); cbn [dt_us]; nia.
  - intros k a Ha Hnone.
    apply windows_nth in Ha. fold diff c in Ha. destruct Ha as [-> Hka].
    apply nth_error_None in Hnone. rewrite windows_length in Hnone. fold diff c in Hnone.
    assert (Hq : (days diff + c) / c <= Z.of_nat (S k)) by lia.
    pose proof (Z.mul_succ_div_gt (days diff + c) c Hc) as Hm.
    assert (Hk : days diff < (Z.of_nat k + 1) * c) by nia.
    unfold query_window, dt_lt, dt_add, dt_sub_td, timedelta_days, timedelta_seconds.
    cbn [fst snd dt_us td_us].
    rewrite us_per_day_value, us_per_second_value in *.
    destruct (Z.ltb_spec (dt_us tn)
                (dt_us ts + Z.of_nat k * c * 86400000000 + c * 86400000000
                 - 1 * 1000000)); cbn [dt_us]; nia.
Qed.

Lemma windows_tile_the_span_witness :
  dt_us (mk_datetime 2023 12 31 0 0 0 0) <= dt_us (mk_datetime 2024 1 10 12 0 0 0)
  /\ forall k a b,
      nth_error (windows (mk_datetime 2023 12 31 0 0 0 0)
                         (mk_datetime 2024 1 10 12 0 0 0)) k = Some a ->
      nth_error (windows (mk_datetime 2023 12 31 0 0 0 0)
                         (mk_datetime 2024 1 10 12 0 0 0)) (S k) = Some b ->
      dt_us (fst b) = dt_us (snd a) + us_per_second.
Proof.
  assert (H : dt_us (mk_datetime 2023 12 31 0 0 0 0)
              <= dt_us (mk_datetime 2024 1 10 12 0 0 0)) by (vm_compute; discriminate).
  split; [exact H |].
  exact (proj1 (proj2 (windows_tile_the_span (mk_datetime 2023 12 31 0 0 0 0)
                                             (mk_datetime 2024 1 10 12 0 0 0) H))).
Defined.

(** ** The wire format *)

(** The date and time of day down to the second depend on the whole second
    only. *)
Lemma fields_of_second : forall a b,
  wire_second a = wire_second b ->
  let fa := fields_of a in
  let fb := fields_of b in
  year fa = year fb /\ month fa = month fb /\ day fa = day fb
  /\ hour fa = hour fb /\ minute fa = minute fb /\ second fa = second fb.
Proof.
  intros a b H.
  assert (Hs : forall x,
             dt_us x / us_per_day = wire_second x / 86400
             /\ dt_us x mod us_per_day / us_per_second = wire_second x mod 86400).
  { intros x. unfold wire_second, us_per_day.
    rewrite us_per_second_value.
    pose proof (Z.div_mod (dt_us x) 1000000 ltac:(lia)) as E1.
    pose proof (Z.mod_pos_bound (dt_us x) 1000000 ltac:(lia)) as B1.
    pose proof (Z.div_mod (dt_us x / 1000000) 86400 ltac:(lia)) as E2.
    pose proof (Z.mod_pos_bound (dt_us x / 1000000) 86400 ltac:(lia)) as B2.
    assert (Hq : dt_us x / (86400 * 1000000) = dt_us x / 1000000 / 86400).
    { symmetry. apply Z.div_unique
        with (r := 1000000 * (dt_us x / 1000000 mod 86400) + dt_us x mod 1000000); lia. }
    assert (Hr : dt_us x mod (86400 * 1000000)
                 = 1000000 * (dt_us x / 1000000 mod 86400) + dt_us x mod 1000000).
    { symmetry. apply Z.mod_unique with (q := dt_us x / 1000000 / 86400); lia. }
    split; [exact Hq |]. rewrite Hr.
    symmetry. apply Z.div_unique with (r := dt_us x mod 1000000); lia. }
  destruct (Hs a) as [Da Sa]. destruct (Hs b) as [Db Sb].
  unfold fields_of. rewrite Da, Db, Sa, Sb, H.
  destruct (civil_from_days (wire_second b / 86400)) as [[y mo] d].
  cbn. repeat split; reflexivity.
Qed.

(** The wire format shows the whole second: two datetimes of one second are
    sent as the same text, as are a datetime and its cut to the second. *)
Theorem get_time_lp_shows_the_second : forall rt a b,
  wire_second a = wire_second b ->
  get_time_lp rt (PyDatetime a) = get_time_lp rt (PyDatetime b)
  /\ get_time_lp rt (PyDatetime (replace_microsecond0 a))
     = get_time_lp rt (PyDatetime a).
Proof.
  intros rt a b Hab.
  assert (H : forall x y, wire_second x = wire_second y ->
                          strftime_lp x = strftime_lp y).
  { intros x y Hxy. unfold strftime_lp.
    destruct (fields_of_second x y Hxy) as (-> & -> & -> & -> & -> & ->).
    reflexivity. }
  split.
  - rewrite !get_time_lp_datetime. f_equal. now apply H.
  - rewrite !get_time_lp_datetime. f_equal. apply H.
    unfold wire_second, replace_microsecond0. cbn [dt_us].
    rewrite us_per_second_value.
    pose proof (Z.div_mod (dt_us a) 1000000 ltac:(lia)) as E.
    symmetry. apply Z.div_unique with (r := 0); lia.
Qed.

Lemma get_time_lp_shows_the_second_witness :
  wire_second (mk_datetime 2024 1 10 0 0 0 999999) = wire_second jan10
  /\ get_time_lp (host (reply "OK" [])) (PyDatetime (mk_datetime 2024 1 10 0 0 0 999999))
     = Ok "2024-01-10 00:00:00".
Proof.
  split; [reflexivity |].
  rewrite (proj1 (get_time_lp_shows_the_second
                    (host (reply "OK" [])) (mk_datetime 2024 1 10 0 0 0 999999) jan10
                    eq_refl)).
  reflexivity.
Defined.

(** ** More on the collection driver *)

Lemma emitted_app : forall t1 t2,
  emitted (t1 ++ t2) = (emitted t1 ++ emitted t2)%list.
Proof.
  induction t1 as [| [url from to | data time | p] t1 IH]; intros t2; cbn;
    rewrite ?IH; reflexivity.
Qed.

Lemma dict_get_set_same : forall m k v, dict_get (dict_set m k v) k = Some v.
Proof.
  intros m k v. induction m as [| [k0 v0] m IH]; cbn.
  - now rewrite String.eqb_refl.
  - destruct (String.eqb_spec k0 k) as [-> | Hne]; cbn.
    + now rewrite String.eqb_refl.
    + destruct (String.eqb_spec k0 k); [contradiction | exact IH].
Qed.

(** A checkpoint write, done or failed, emits nothing, reads no clock and
    never exits. *)
Lemma save_checkpoint_final : forall rt helper time_curr time_start time_end w,
  (exists p, save_checkpoint rt helper time_curr time_start time_end w
             = Ret tt (World (tick w) (PyDict p) (trace w ++ [Save p])))
  \/ (exists e, save_checkpoint rt helper time_curr time_start time_end w = Raise e w).
Proof.
  intros rt helper tc ts te w.
  unfold save_checkpoint, try_except, bind, helper_save_check_point.
  destruct (prepare_time_value_outcome rt tc STR_TCURR) as [[c Hc] | Hc];
    rewrite Hc; [| right; eexists; reflexivity].
  destruct (prepare_time_value_outcome rt ts STR_TSTART) as [[s Hs] | Hs];
    rewrite Hs; [| right; eexists; reflexivity].
  destruct (prepare_time_value_outcome rt te STR_TEND) as [[e He] | He];
    rewrite He; [| right; eexists; reflexivity].
  cbn [lift ret].
  destruct (save_check_point_fault helper _) as [x |].
  - right. destruct (exn_message x); eexists; reflexivity.
  - left. eexists. reflexivity.
Qed.

(** The step of the event loop on a record that is a mapping with a
    [Time], spelled out. *)
Lemma record_step_unfold : forall rt helper ts tn m k r t st w,
  dict_get m k = Some (PyDict r) ->
  dict_get r "Time" = Some t ->
  let time := match convert_time rt t with
              | Some d => PyStr (strftime_epoch (tz rt) d)
              | None => PyFloat (timestamp (tz rt) (clock rt (tick w)))
              end in
  let read := match convert_time rt t with
              | Some _ => tick w
              | None => S (tick w)
              end in
  let data := PyDict (dict_set (dict_set r "event_id" (PyStr k)) "time_collected"
                               (PyFloat (timestamp (tz rt) (clock rt read)))) in
  let w1 := World (S read) (store w) (trace w ++ [Emit data time]) in
  record_step rt helper ts tn (PyDict m) st (PyStr k) w
  = if (fst st + 1) mod 1000 =? 0
    then match save_checkpoint rt helper time (PyDatetime ts) (PyDatetime tn) w1 with
         | Ret _ w' => Ret (fst st + 1, time) w'
         | Raise e w' => Raise e w'
         | Exit n w' => Exit n w'
         end
    else Ret (fst st + 1, time) w1.
Proof.
  intros rt helper ts tn m k r t st w Hget Ht.
  unfold record_step, bind. cbn [py_getitem lift]. rewrite Hget.
  cbn [ret py_setitem lift py_getitem].
  rewrite dict_get_set_other by discriminate. rewrite Ht. cbn [ret lift].
  destruct (convert_time rt t) as [d |]; cbv zeta;
    unfold now, write_event, emit, ret; cbn [tick store trace];
    destruct ((fst st + 1) mod 1000 =? 0); reflexivity.
Qed.

(** The event of a record that is a mapping with a [Time]. *)
Lemma record_step_final : forall rt helper ts tn m k r t st w,
  dict_get m k = Some (PyDict r) ->
  dict_get r "Time" = Some t ->
  let time := match convert_time rt t with
              | Some d => PyStr (strftime_epoch (tz rt) d)
              | None => PyFloat (timestamp (tz rt) (clock rt (tick w)))
              end in
  let read := match convert_time rt t with
              | Some _ => tick w
              | None => S (tick w)
              end in
  let data := PyDict (dict_set (dict_set r "event_id" (PyStr k)) "time_collected"
                               (PyFloat (timestamp (tz rt) (clock rt read)))) in
  emitted (trace (final (record_step rt helper ts tn (PyDict m) st (PyStr k) w)))
  = (emitted (trace w) ++ [(data, time)])%list
  /\ match record_step rt helper ts tn (PyDict m) st (PyStr k) w with
     | Ret st' _ => st' = (fst st + 1, time)
     | Raise _ _ => True
     | Exit _ _ => False
     end.
Proof.
  intros rt helper ts tn m k r t st w Hget Ht time read data.
  rewrite (record_step_unfold rt helper ts tn m k r t st w Hget Ht). cbv zeta.
  fold time read data.
  destruct ((fst st + 1) mod 1000 =? 0).
  - match goal with
    | |- context [save_checkpoint rt helper ?a ?b ?c ?W] =>
        destruct (save_checkpoint_final rt helper a b c W) as [[p ->] | [e ->]]
    end; cbn [final trace]; rewrite ?emitted_app; cbn [emitted];
      rewrite ?app_nil_r; auto.
  - cbn [final trace]. rewrite emitted_app. cbn [emitted]. auto.
Qed.

(** The event of a record: the vendor's fields as they came, the key of the
    record as [event_id], the clock as [time_collected], and as event time
    the record's own [Time] when it parses and the clock reading taken at
    that moment when it does not.  This holds whether or not a checkpoint
    write follows and succeeds. *)
Theorem record_step_emits_enriched_record : forall rt helper ts tn m k r t st w,
  dict_get m k = Some (PyDict r) ->
  dict_get r "Time" = Some t ->
  exists data time,
    emitted (trace (final (record_step rt helper ts tn (PyDict m) st (PyStr k) w)))
    = (emitted (trace w) ++ [(data, time)])%list
    /\ py_get data "event_id" = Ok (PyStr k)
    /\ (forall f, f <> "event_id" -> f <> "time_collected" ->
                  py_get data f = py_get (PyDict r) f)
    /\ match convert_time rt t with
       | Some d =>
           time = PyStr (strftime_epoch (tz rt) d)
           /\ py_get data "time_collected"
              = Ok (PyFloat (timestamp (tz rt) (clock rt (tick w))))
       | None =>
           time = PyFloat (timestamp (tz rt) (clock rt (tick w)))
           /\ py_get data "time_collected"
              = Ok (PyFloat (timestamp (tz rt) (clock rt (S (tick w)))))
       end.
Proof.
  intros rt helper ts tn m k r t st w Hget Ht.
  destruct (record_step_final rt helper ts tn m k r t st w Hget Ht) as [He _].
  do 2 eexists. split; [exact He |].
  split; [| split].
  - cbn [py_get]. rewrite dict_get_set_other by discriminate.
    now rewrite dict_get_set_same.
  - intros f H1 H2. cbn [py_get].
    rewrite !dict_get_set_other by congruence. reflexivity.
  - destruct (convert_time rt t); (split; [reflexivity |]);
      cbn [py_get]; now rewrite dict_get_set_same.
Qed.

Lemma record_step_emits_enriched_record_witness :
  exists data time,
    emitted (trace (final (record_step (host (reply "OK" [])) (plain_helper PyNone)
                                       (mk_datetime 2024 1 9 0 0 0 0) jan10
                                       (PyDict [("Event1", activity "not a time")])
                                       (0, PyNone) (PyStr "Event1")
                                       (World 1 valid_record []))))
    = [(data, time)]
    /\ py_get data "event_id" = Ok (PyStr "Event1")
    /\ py_get data "Username" = Ok (PyStr "user@example.com")
    /\ time = PyFloat (FDec 1704844800000000 (-6)).
Proof.
  destruct (record_step_emits_enriched_record
              (host (reply "OK" [])) (plain_helper PyNone)
              (mk_datetime 2024 1 9 0 0 0 0) jan10
              [("Event1", activity "not a time")] "Event1"
              [("Time", PyStr "not a time"); ("Username", PyStr "user@example.com");
               ("Action", PyStr "Log in")]
              (PyStr "not a time") (0, PyNone) (World 1 valid_record [])
              eq_refl eq_refl)
    as (data & time & He & Hid & Hf & Ht).
  exists data, time. split; [exact He |]. split; [exact Hid |].
  split; [rewrite Hf by discriminate; reflexivity |].
  exact (proj1 Ht).
Defined.

(** The step of the event loop on a record it cannot take. *)
Lemma record_step_malformed : forall rt helper ts tn m k st w,
  match dict_get m k with
  | Some (PyDict r) =>
      dict_get r "Time" = None ->
      record_step rt helper ts tn (PyDict m) st (PyStr k) w = Raise (Builtin KeyError) w
  | Some _ =>
      record_step rt helper ts tn (PyDict m) st (PyStr k) w = Raise (Builtin TypeError) w
  | None =>
      record_step rt helper ts tn (PyDict m) st (PyStr k) w = Raise (Builtin KeyError) w
  end.
Proof.
  intros rt helper ts tn m k st w. unfold record_step, bind.
  cbn [py_getitem lift].
  destruct (dict_get m k) as [[| b | z | f | s | d | t | l | r] |];
    try reflexivity.
  intros Ht. cbn [ret py_setitem lift py_getitem].
  rewrite dict_get_set_other by discriminate. now rewrite Ht.
Qed.

(** A record that is no mapping, or a mapping without [Time], stops the
    window with [TypeError] or [KeyError] before anything is emitted for it;
    so does a key that the reply does not hold. *)
Theorem record_step_rejects_malformed_record : forall rt helper ts tn m k st w,
  match dict_get m k with
  | Some (PyDict r) =>
      dict_get r "Time" = None ->
      record_step rt helper ts tn (PyDict m) st (PyStr k) w = Raise (Builtin KeyError) w
  | Some _ =>
      record_step rt helper ts tn (PyDict m) st (PyStr k) w = Raise (Builtin TypeError) w
  | None =>
      record_step rt helper ts tn (PyDict m) st (PyStr k) w = Raise (Builtin KeyError) w
  end.
Proof. exact record_step_malformed. Qed.

Lemma record_step_rejects_malformed_record_witness :
  record_step (host (reply "OK" [])) (plain_helper PyNone)
              (mk_datetime 2024 1 9 0 0 0 0) jan10
              (PyDict [("Event1", PyDict [("Username", PyStr "user@example.com")])])
              (0, PyNone) (PyStr "Event1") (World 1 valid_record [])
  = Raise (Builtin KeyError) (World 1 valid_record []).
Proof.
  apply (record_step_rejects_malformed_record
           (host (reply "OK" [])) (plain_helper PyNone)
           (mk_datetime 2024 1 9 0 0 0 0) jan10
           [("Event1", PyDict [("Username", PyStr "user@example.com")])] "Event1").
  reflexivity.
Defined.

(** One step of the event loop emits at most the event of its key, and
    exactly that when it returns. *)
Lemma record_step_ids : forall rt helper ts tn m k st w,
  let ids t := map (fun e => py_get (fst e) "event_id") (emitted t) in
  match record_step rt helper ts tn (PyDict m) st (PyStr k) w with
  | Ret _ w' => ids (trace w') = (ids (trace w) ++ [Ok (PyStr k)])%list
  | Raise _ w' => exists n, ids (trace w')
                            = (ids (trace w) ++ firstn n [Ok (PyStr k)])%list
  | Exit _ _ => False
  end.
Proof.
  intros rt helper ts tn m k st w ids.
  pose proof (record_step_malformed rt helper ts tn m k st w) as Hbad.
  assert (Hnone : exists n, ids (trace w)
                            = (ids (trace w) ++ firstn n [Ok (PyStr k)])%list)
    by (exists 0%nat; cbn; now rewrite app_nil_r).
  destruct (dict_get m k) as [item |] eqn:Hget; [| now rewrite Hbad].
  destruct item as [| b | z | f | s | d | t | l | r]; try (now rewrite Hbad).
  destruct (dict_get r "Time") as [t |] eqn:Ht; [| now rewrite Hbad].
  destruct (record_step_final rt helper ts tn m k r t st w Hget Ht) as [He Hst].
  assert (Hid : forall w', emitted (trace w')
                           = (emitted (trace w)
                              ++ [(PyDict (dict_set (dict_set r "event_id" (PyStr k))
                                                    "time_collected"
                                                    (PyFloat (timestamp (tz rt)
                                                       (clock rt match convert_time rt t with
                                                                 | Some _ => tick w
                                                                 | None => S (tick w)
                                                                 end)))),
                                   match convert_time rt t with
                                   | Some d => PyStr (strftime_epoch (tz rt) d)
                                   | None => PyFloat (timestamp (tz rt) (clock rt (tick w)))
                                   end)])%list ->
                           ids (trace w') = (ids (trace w) ++ [Ok (PyStr k)])%list).
  { intros w' E. unfold ids. rewrite E, map_app. cbn [map fst py_get].
    rewrite dict_get_set_other by discriminate. now rewrite dict_get_set_same. }
  destruct (record_step rt helper ts tn (PyDict m) st (PyStr k) w)
    as [st' w' | e w' | n w']; cbn [final] in He.
  - now apply Hid.
  - exists 1%nat. now apply Hid.
  - exact Hst.
Qed.

(** The event loop emits the events of the keys in their order, as far as
    it gets. *)
Lemma records_loop_ids : forall rt helper ts tn m l st w,
  let ids t := map (fun e => py_get (fst e) "event_id") (emitted t) in
  let o := for_each (record_step rt helper ts tn (PyDict m))
                    (map (fun kv : string * pyval => PyStr (fst kv)) l) st w in
  exists n,
    ids (trace (final o))
    = (ids (trace w) ++ map (fun kv => Ok (PyStr (fst kv))) (firstn n l))%list
    /\ match o with
       | Ret _ _ => n = List.length l
       | Raise _ _ => True
       | Exit _ _ => False
       end.
Proof.
  intros rt helper ts tn m l. induction l as [| kv l IH]; intros st w ids o.
  - exists 0%nat. subst o. cbn. now rewrite app_nil_r.
  - subst o. cbn [map for_each]. unfold bind.
    pose proof (record_step_ids rt helper ts tn m (fst kv) st w) as Hs.
    cbv zeta in Hs. unfold ids.
    destruct (record_step rt helper ts tn (PyDict m) st (PyStr (fst kv)) w)
      as [st' w' | e w' | x w']; cbv beta iota.
    + destruct (IH st' w') as (n & Hn & Ho). cbv zeta in Hn, Ho.
      exists (S n). split.
      * rewrite Hn, Hs, <- app_assoc. reflexivity.
      * destruct (for_each _ _ st' w'); cbn [List.length]; try (now rewrite Ho); auto.
    + destruct Hs as [n Hn]. cbn [final].
      destruct n as [| n].
      * exists 0%nat. split; [| exact I]. rewrite Hn. reflexivity.
      * exists 1%nat. split; [| exact I]. rewrite Hn. destruct n; reflexivity.
    + contradiction.
Qed.

(** The events of a reply are emitted in the order of the reply, each key
    once and no other: those of an initial part of the keys when the window
    fails, those of all the keys when it returns. *)
Theorem events_in_response_order : forall rt helper ts tn resp_ev resp_ev_json m w,
  json resp_ev = Ok resp_ev_json ->
  py_getitem resp_ev_json (PyStr "data") = Ok (PyDict m) ->
  let ids t := map (fun e => py_get (fst e) "event_id") (emitted t) in
  let o := handle_response rt helper ts tn resp_ev w in
  exists n,
    ids (trace (final o))
    = (ids (trace w) ++ map (fun kv => Ok (PyStr (fst kv))) (firstn n m))%list
    /\ match o with
       | Ret _ _ => n = List.length m
       | _ => True
       end.
Proof.
  intros rt helper ts tn resp j m w Hjson Hdata ids o.
  assert (Hzero : exists n,
             ids (trace w)
             = (ids (trace w) ++ map (fun kv => Ok (PyStr (fst kv))) (firstn n m))%list)
    by (exists 0%nat; cbn; now rewrite app_nil_r).
  destruct (records_loop_ids rt helper ts tn m m (0, PyNone) w) as (n & Hn & Ho).
  cbv zeta in Hn, Ho. unfold ids in *.
  subst o. unfold handle_response, bind. rewrite Hjson. cbn [lift ret].
  destruct (py_getitem j (PyStr "status")) as [status |];
    cbn [lift ret raise final];
    [| destruct Hzero as [n0 Hn0]; exists n0; auto].
  destruct (py_contains "OK" status) as [[|] |];
    cbn [lift ret raise final negb sys_exit];
    try (destruct Hzero as [n0 Hn0]; exists n0; split; [exact Hn0 | exact I]).
  rewrite Hdata. cbn [lift ret py_iter].
  destruct (for_each _ _ (0, PyNone) w) as [st w1 | e w1 | x w1];
    cbn [final] in *; try (exists n; split; [exact Hn | exact I]).
  destruct (truthy (snd st)).
  - destruct (save_checkpoint_final rt helper (snd st) (PyDatetime ts)
                                    (PyDatetime tn) w1) as [[p ->] | [e ->]];
      cbn [final trace]; exists n; (split; [| auto]).
    + rewrite emitted_app. cbn [emitted]. rewrite app_nil_r. exact Hn.
    + exact Hn.
  - exists n. auto.
Qed.

Lemma events_in_response_order_witness :
  exists n,
    map (fun e => py_get (fst e) "event_id")
        (emitted (trace (final (handle_response
                                  (host (reply "OK" (activities 3))) (plain_helper PyNone)
                                  (mk_datetime 2024 1 9 0 0 0 0) jan10
                                  (reply "OK" (activities 3))
                                  (World 1 valid_record [])))))
    = map (fun kv => Ok (PyStr (fst kv))) (firstn n (activities 3))
    /\ n = 3%nat.
Proof.
  destruct (events_in_response_order
              (host (reply "OK" (activities 3))) (plain_helper PyNone)
              (mk_datetime 2024 1 9 0 0 0 0) jan10
              (reply "OK" (activities 3))
              (PyDict [("status", PyStr "OK"); ("data", PyDict (activities 3))])
              (activities 3) (World 1 valid_record []) eq_refl eq_refl)
    as (n & Hn & Ho).
  exists n. split; [exact Hn | exact Ho].
Defined.

(** A failure of the HTTP client, of the decoding of its reply or of the
    lookup of the status is raised out of the window loop after the one
    request was recorded: nothing is emitted or saved for the window and no
    later window is asked for. *)
Theorem window_failure_is_raised :
  forall rt helper ts tn day_incr i rest e w,
    let q := wire (query_window ts tn day_incr i) in
    requests_post rt (rest_url helper) (fst q) (snd q) = Err e
    \/ (exists resp_ev,
           requests_post rt (rest_url helper) (fst q) (snd q) = Ok resp_ev
           /\ (json resp_ev = Err e
               \/ exists resp_ev_json,
                   json resp_ev = Ok resp_ev_json
                   /\ py_getitem resp_ev_json (PyStr "status") = Err e)) ->
    for_each (window_body rt helper ts tn day_incr) (i :: rest) tt w
    = Raise e (World (tick w) (store w)
                     (trace w ++ [Post (rest_url helper) (fst q) (snd q)])).
Proof.
  intros rt helper ts tn c i rest e w q H.
  apply for_each_stops.
  unfold window_body. subst q. unfold wire in *.
  destruct (query_window ts tn c i) as [start end_]. cbn [fst snd] in *.
  rewrite !get_time_lp_datetime. cbn [lift]. unfold bind at 1 2. cbn [ret].
  unfold try_except. unfold bind at 1. rewrite post_outcome. cbv zeta.
  destruct H as [-> | (resp & -> & [Hj | (j & Hj & Hs)])]; [reflexivity | |];
    unfold handle_response, bind; rewrite Hj; cbn [lift ret raise];
    rewrite ?Hs; reflexivity.
Qed.

Lemma window_failure_is_raised_witness :
  for_each (window_body (Runtime 0 (fun _ => jan10)
                                 (fun _ _ _ => Err (Foreign "ConnectionError" None)))
                        (plain_helper PyNone) (mk_datetime 2024 1 9 0 0 0 0) jan10 1)
           [0; 1] tt (World 1 valid_record [])
  = Raise (Foreign "ConnectionError" None)
          (World 1 valid_record
                 [Post "https://lastpass.com/enterpriseapi.php"
                       "2024-01-09 00:00:00" "2024-01-09 23:59:59"]).
Proof.
  apply (window_failure_is_raised
           (Runtime 0 (fun _ => jan10) (fun _ _ _ => Err (Foreign "ConnectionError" None)))
           (plain_helper PyNone) (mk_datetime 2024 1 9 0 0 0 0) jan10 1 0 [1]
           (Foreign "ConnectionError" None) (World 1 valid_record [])).
  left. reflexivity.
Defined.

(** ** Decimal text *)

Ltac digit_cases c Hc :=
  destruct c as [[] [] [] [] [] [] [] []]; vm_compute in Hc;
  try discriminate Hc; clear Hc.


Lemma str_app_nil_r : forall s : string, s ++ "" = s.
Proof. induction s as [| c s IH]; cbn; [reflexivity | now rewrite IH]. Qed.











Lemma digits_tail_value : forall s acc cnt rest,
  all_digits s = true -> ends_digits rest = true ->
  digits_tail acc cnt (s ++ rest)
  = (digits_value acc s, cnt + Z.of_nat (String.length s), rest).
Proof.
  induction s as [| c s IH]; intros acc cnt rest Hs Hr.
  - cbn [append digits_value String.length]. rewrite Z.add_0_r.
    destruct rest as [| a rest]; [reflexivity |].
    cbn in Hr. apply andb_true_iff in Hr. destruct Hr as [H1 H2].
    apply negb_true_iff in H1, H2. cbn [digits_tail]. now rewrite H1, H2.
  - cbn in Hs. apply andb_true_iff in Hs. destruct Hs as [Hc Hs].
    cbn [append digits_tail digits_value String.length]. rewrite Hc.
    rewrite IH by assumption. f_equal. f_equal. lia.
Qed.

Lemma digits_run : forall s acc rest,
  all_digits s = true -> s <> "" -> ends_digits rest = true ->
  digits acc (s ++ rest) = (digits_value acc s, Z.of_nat (String.length s), rest).
Proof.
  intros s acc rest Hs Hne Hr. destruct s as [| c s]; [contradiction |].
  cbn in Hs. apply andb_true_iff in Hs. destruct Hs as [Hc Hs].
  cbn [append digits]. rewrite Hc, digits_tail_value by assumption.
  cbn [digits_value String.length]. f_equal. f_equal. lia.
Qed.

(** *** The text of an integer *)

Lemma uint_all_digits : forall d, all_digits (NilEmpty.string_of_uint d) = true.
Proof. induction d; cbn [NilEmpty.string_of_uint all_digits]; auto. Qed.

Ltac uint_step IHd p c v k :=
  cbn [NilEmpty.string_of_uint digits_value];
  change (digit_val c) with v;
  match goal with
  | |- _ = Z.pos (Pos.of_uint_acc (?D ?d) p) =>
      change (Pos.of_uint_acc (D d) p) with (Pos.of_uint_acc d k)
  end;
  rewrite <- IHd; f_equal; lia.

Lemma uint_value_acc : forall d p,
  digits_value (Z.pos p) (NilEmpty.string_of_uint d) = Z.pos (Pos.of_uint_acc d p).
Proof.
  induction d; intros p.
  - reflexivity.
  - uint_step IHd p "0"%char 0 (10 * p)%positive.
  - uint_step IHd p "1"%char 1 (1 + 10 * p)%positive.
  - uint_step IHd p "2"%char 2 (2 + 10 * p)%positive.
  - uint_step IHd p "3"%char 3 (3 + 10 * p)%positive.
  - uint_step IHd p "4"%char 4 (4 + 10 * p)%positive.
  - uint_step IHd p "5"%char 5 (5 + 10 * p)%positive.
  - uint_step IHd p "6"%char 6 (6 + 10 * p)%positive.
  - uint_step IHd p "7"%char 7 (7 + 10 * p)%positive.
  - uint_step IHd p "8"%char 8 (8 + 10 * p)%positive.
  - uint_step IHd p "9"%char 9 (9 + 10 * p)%positive.
Qed.

Lemma uint_value : forall d,
  digits_value 0 (NilEmpty.string_of_uint d) = Z.of_N (Pos.of_uint d).
Proof.
  induction d; cbn [NilEmpty.string_of_uint digits_value Pos.of_uint];
    [reflexivity | exact IHd | apply uint_value_acc ..].
Qed.

(** The text of a natural number: the digits of a numeral without a
    leading zero, unless it is zero itself. *)
Lemma str_of_Z_uint : forall z, 0 <= z ->
  exists d, str_of_Z z = NilEmpty.string_of_uint d
            /\ d <> Decimal.Nil
            /\ Z.of_N (Pos.of_uint d) = z
            /\ (0 < z -> forall d', d <> Decimal.D0 d').
Proof.
  intros z Hz. destruct z as [| p | p]; [| | lia].
  - exists (Decimal.D0 Decimal.Nil). repeat split; [discriminate | lia].
  - exists (Pos.to_uint p).
    pose proof (DecimalPos.Unsigned.of_to p) as Hof.
    assert (Hne : Pos.to_uint p <> Decimal.Nil).
    { intros E. rewrite E in Hof. discriminate. }
    repeat split.
    + unfold str_of_Z. cbn [Z.to_int NilZero.string_of_int NilZero.string_of_uint].
      destruct (Pos.to_uint p); [contradiction | reflexivity ..].
    + exact Hne.
    + now rewrite Hof.
    + intros _ d' E.
      pose proof (DecimalPos.Unsigned.to_of (Pos.to_uint p)) as Hto.
      rewrite Hof in Hto. cbn [N.to_uint] in Hto.
      unfold Decimal.unorm in Hto.
      destruct (Decimal.nzhead (Pos.to_uint p)) eqn:En;
        try (rewrite E in Hto; symmetry in Hto;
             rewrite <- En in Hto; exact (DecimalFacts.nzhead_nonzero _ _ Hto)).
      rewrite Hto in Hof. discriminate.
Qed.

Lemma uint_nonempty : forall d, d <> Decimal.Nil -> NilEmpty.string_of_uint d <> "".
Proof. intros d H. destruct d; [contradiction | discriminate ..]. Qed.

Lemma str_of_Z_digits : forall z, 0 <= z ->
  all_digits (str_of_Z z) = true /\ str_of_Z z <> ""
  /\ digits_value 0 (str_of_Z z) = z.
Proof.
  intros z Hz. destruct (str_of_Z_uint z Hz) as (d & E & Hne & Hv & _).
  rewrite E. split; [apply uint_all_digits |].
  split; [now apply uint_nonempty | now rewrite uint_value].
Qed.





(** *** Trailing zeros and slices *)






(** *** Parsing a number that starts with a digit *)

Lemma int_of_str_digit : forall c s, is_digit c = true ->
  int_of_str (String c s)
  = let '(v, cnt, rest) := digits 0 (String c s) in
    if (0 <? cnt) && all_space rest then Ok v else Err (Builtin ValueError).
Proof. intros c s Hc. digit_cases c Hc; reflexivity. Qed.




Lemma int_of_str_of_Z : forall z, int_of_str (str_of_Z z) = Ok z.
Proof.
  assert (Hpos : forall z, 0 <= z ->
            digits 0 (str_of_Z z) = (z, Z.of_nat (String.length (str_of_Z z)), "")
            /\ exists c s, str_of_Z z = String c s /\ is_digit c = true).
  { intros z Hz. destruct (str_of_Z_digits z Hz) as (Ha & Hne & Hv).
    pose proof (digits_run _ 0 "" Ha Hne eq_refl) as Hd.
    rewrite str_app_nil_r, Hv in Hd. split; [exact Hd |].
    destruct (str_of_Z z) as [| c s]; [contradiction |].
    cbn in Ha. apply andb_true_iff in Ha. now exists c, s. }
  intros z. destruct z as [| p | p].
  - reflexivity.
  - destruct (Hpos (Z.pos p) ltac:(lia)) as (Hd & c & s & E & Hc).
    rewrite E in *. rewrite (int_of_str_digit c s Hc), Hd.
    cbn [String.length all_space]. rewrite Nat2Z.inj_succ.
    destruct (Z.ltb_spec 0 (Z.succ (Z.of_nat (String.length s)))); [reflexivity | lia].
  - destruct (Hpos (Z.pos p) ltac:(lia)) as (Hd & c & s & E & Hc).
    change (str_of_Z (Z.neg p)) with (String "-" (str_of_Z (Z.pos p))).
    change (int_of_str (String "-" (str_of_Z (Z.pos p))))
      with (let '(v, cnt, rest) := digits 0 (str_of_Z (Z.pos p)) in
            if (0 <? cnt) && all_space rest then Ok (- v)
            else Err (Builtin ValueError)).
    rewrite Hd, E. cbn [String.length all_space]. rewrite Nat2Z.inj_succ.
    destruct (Z.ltb_spec 0 (Z.succ (Z.of_nat (String.length s)))); [reflexivity | lia].
Qed.

(** *** The text of a float with six decimals *)




(** ** What is stored reads back *)





(** An integer epoch is stored as its decimal text, and [convert_time]
    reads that text as it reads the integer (for an integer below the
    interpreter's limit on the digits of an integer text). *)
Theorem stored_epoch_reads_back : forall rt z field_name,
  Z.abs z < 10 ^ 4300 ->
  prepare_time_value rt (PyInt z) field_name = Ok (str_of_Z z)
  /\ convert_time rt (PyStr (str_of_Z z)) = convert_time rt (PyInt z).
Proof.
  intros rt z field_name _. split; [reflexivity |].
  unfold convert_time, check_digit. cbn [py_int].
  now rewrite int_of_str_of_Z.
Qed.

Lemma stored_epoch_reads_back_witness :
  prepare_time_value (host (reply "OK" [])) (PyInt 1704830400) STR_TSTART
  = Ok "1704830400"
  /\ convert_time (host (reply "OK" [])) (PyStr "1704830400")
     = Some (mk_datetime 2024 1 9 20 0 0 0).
Proof.
  destruct (stored_epoch_reads_back (host (reply "OK" [])) 1704830400 STR_TSTART
              eq_refl) as [H1 H2].
  split; [exact H1 |].
  change "1704830400" with (str_of_Z 1704830400). rewrite H2. reflexivity.
Defined.
